(** * weather: a shallow embedding of [weather/weather.go]

    The Go package proxies the National Weather Service API and the
    Nominatim geocoder and renders their JSON answers as plain text.
    This development embeds the decoded JSON tree, the three pipelines
    ([GetAlerts], [GetForecast], [GeocodeCity] / [GetForecastByCity]) and
    the three HTTP handlers, and proves properties of the rendering.

    Conventions.
    - A Go [string] is a byte sequence: Rocq [string].
    - A Go [error] is observed only through [err.Error()]: [error] is the
      message; a nil error is [None].
    - [map[string]interface{}] is a [gmap string json]; indexing a missing
      key gives the nil interface, which is also what JSON [null] decodes to.
    - [float64] is [spec_float] (sign, mantissa, binary exponent).
    - The network is a state [W] threaded through every call of
      [client.Do]; the standard-library functions the package calls but
      that are not formatting (URL parsing, JSON decoding, float parsing,
      query escaping) are the fields of a [Platform]. *)

From Stdlib Require Import ZArith Lia Ascii String DecimalString.
From Stdlib Require Import Floats.SpecFloat.
From stdpp Require Import gmap strings list fin_maps.

Set Default Proof Using "Type".
#[local] Set Warnings "-register-all".
#[local] Open Scope string_scope.
#[local] Open Scope Z_scope.

(** ** Go values shared by all modules *)

Definition error := string.

Inductive result (A : Type) : Type :=
| Ok (a : A)
| Err (e : error).
Arguments Ok {A} a.
Arguments Err {A} e.

Definition is_Err {A} (r : result A) : Prop :=
  match r with Ok _ => False | Err _ => True end.

(** ** Package [strings] and decimal formatting *)

Module GoStrings.

(** The byte 0x0A, written [\n] in Go source. *)
Definition LF : string := String "010" EmptyString.

(** [strings.Join(elems, sep)]. *)
Fixpoint Join (elems : list string) (sep : string) : string :=
  match elems with
  | [] => ""
  | e :: rest =>
      match rest with
      | [] => e
      | _ :: _ => e +:+ sep +:+ Join rest sep
      end
  end.

(** [strings.Contains(s, substr)] as a proposition and as a test. *)
Definition Contains (s substr : string) : Prop :=
  exists pre post, s = pre +:+ substr +:+ post.

Fixpoint containsb (s substr : string) : bool :=
  String.prefix substr s ||
  match s with
  | EmptyString => false
  | String _ rest => containsb rest substr
  end.

(** [%d] of an [int]. *)
Definition FormatInt (z : Z) : string := NilZero.string_of_int (Z.to_int z).

(** Decimal digits of a natural number, at least one digit. *)
Definition digits (n : N) : string := NilZero.string_of_uint (N.to_uint n).

(** [s] padded on the left with ['0'] up to [width] bytes. *)
Definition zero_pad (width : nat) (s : string) : string :=
  String.concat "" (replicate (width - String.length s)%nat "0") +:+ s.

End GoStrings.
Import GoStrings.

(** ** [float64] and [strconv.FormatFloat(f, 'f', prec, 64)] *)

Module Float64.

Definition float64 := spec_float.

(** The zero value of the type. *)
Definition zero : float64 := S754_zero false.

(** [num / den] rounded to the nearest integer, ties to the even one
    ([den > 0], [num >= 0]). *)
Definition round_half_even (num den : Z) : Z :=
  let q := num / den in
  let r := num mod den in
  if 2 * r <? den then q
  else if den <? 2 * r then q + 1
  else if Z.even q then q else q + 1.

(** The magnitude [m * 2^e] as the fraction [num / den]. *)
Definition magnitude (m : positive) (e : Z) : Z * Z :=
  if 0 <=? e then (Z.pos m * 2 ^ e, 1) else (Z.pos m, 2 ^ (- e)).

(** [m * 2^e * 10^prec] rounded to an integer: the digits that the
    fixed-point format prints. *)
Definition scaled (prec : nat) (m : positive) (e : Z) : Z :=
  let '(num, den) := magnitude m e in
  round_half_even (num * 10 ^ Z.of_nat prec) den.

(** Fixed-point rendering of a non-negative scaled integer. *)
Definition fixed (prec : nat) (n : Z) : string :=
  let p := 10 ^ Z.of_nat prec in
  digits (Z.to_N (n / p)) +:+
  match prec with
  | O => ""
  | S _ => "." +:+ zero_pad prec (digits (Z.to_N (n mod p)))
  end.

Definition sign_prefix (s : bool) : string := if s then "-" else "".

(** The verbs [%.0f] ([prec = 0]) and [%f] ([prec = 6]) of package [fmt]:
    the sign is printed only when negative, infinities keep theirs. *)
Definition FormatFloat_f (prec : nat) (f : float64) : string :=
  match f with
  | S754_zero s => sign_prefix s +:+ fixed prec 0
  | S754_infinity s => if s then "-Inf" else "+Inf"
  | S754_nan => "NaN"
  | S754_finite s m e => sign_prefix s +:+ fixed prec (scaled prec m e)
  end.

End Float64.
Import Float64.

(** ** The decoded JSON tree ([interface{}] values built by [encoding/json]) *)

Inductive json : Type :=
| JNull                           (* nil interface *)
| JBool (b : bool)                (* bool *)
| JNum (f : float64)              (* float64 *)
| JStr (s : string)               (* string *)
| JArr (l : list json)            (* []interface{} *)
| JObj (m : gmap string json).    (* map[string]interface{} *)

(** [m[k]]: the zero value (nil interface) when the key is missing. *)
Definition index (m : gmap string json) (k : string) : json :=
  default JNull (m !! k).

(** The comma-ok type assertions [v.(T)]: the zero value of [T] and
    [false] when [v] does not hold a [T]. *)
Definition assert_string (v : json) : string * bool :=
  match v with JStr s => (s, true) | _ => ("", false) end.

Definition assert_float64 (v : json) : float64 * bool :=
  match v with JNum f => (f, true) | _ => (Float64.zero, false) end.

Definition assert_map (v : json) : gmap string json * bool :=
  match v with JObj m => (m, true) | _ => (∅, false) end.

Definition assert_slice (v : json) : list json * bool :=
  match v with JArr l => (l, true) | _ => ([], false) end.

(** ** Package [net/http], client side *)

Definition Header := list (string * string).

(** [h.Set(key, value)]: replaces the entry of [key]. *)
Definition Header_Set (h : Header) (key value : string) : Header :=
  (filter (fun kv => kv.1 ≠ key) h ++ [(key, value)])%list.

Record Client : Type := { Timeout : Z (* seconds *) }.

Record Request : Type := {
  req_Method : string;
  req_URL : string;               (* the string given to NewRequest *)
  req_RawQuery : option string;   (* URL.RawQuery when the code assigns it *)
  req_Header : Header
}.

Record Response : Type := {
  StatusCode : Z;
  Body : result string            (* what io.ReadAll(resp.Body) gives *)
}.

Definition StatusOK : Z := 200.
Definition StatusBadRequest : Z := 400.
Definition StatusMethodNotAllowed : Z := 405.
Definition StatusInternalServerError : Z := 500.

(** [url.Values] with [Add], [Get] and [Encode] (keys sorted). *)
Definition Values := list (string * string).

Definition Values_Add (v : Values) (key value : string) : Values :=
  (v ++ [(key, value)])%list.

Definition Values_Get (v : Values) (key : string) : string :=
  match List.find (fun kv => String.eqb kv.1 key) v with
  | Some kv => kv.2
  | None => ""
  end.

Fixpoint insert_by_key (kv : string * string) (v : Values) : Values :=
  match v with
  | [] => [kv]
  | kv' :: rest =>
      if String.leb kv.1 kv'.1 then kv :: v else kv' :: insert_by_key kv rest
  end.

Definition sort_by_key (v : Values) : Values :=
  fold_right insert_by_key [] v.

(** ** Package [encoding/json]: the geocoder's typed target *)

Record GeocodingResult : Type := { Lat : string; Lon : string }.

(** ** The platform: the network and the library calls left abstract *)

Record Platform (W : Type) : Type := {
  (** [url.Parse], as [http.NewRequest] calls it: [Some err] on failure. *)
  url_Parse : string -> option error;
  (** [client.Do(req)] followed by [io.ReadAll] of the body. *)
  client_Do : Client -> Request -> W -> result Response * W;
  (** [json.Unmarshal(body, &result)] with [result : map[string]interface{}]. *)
  json_Unmarshal_map : string -> result (gmap string json);
  (** [json.Unmarshal(body, &results)] with [results : []GeocodingResult]. *)
  json_Unmarshal_geo : string -> result (list GeocodingResult);
  (** [strconv.ParseFloat(s, 64)]. *)
  strconv_ParseFloat : string -> result float64;
  (** [url.QueryEscape]. *)
  url_QueryEscape : string -> string
}.
Arguments url_Parse {W} _ _.
Arguments client_Do {W} _ _ _ _.
Arguments json_Unmarshal_map {W} _ _.
Arguments json_Unmarshal_geo {W} _ _.
Arguments strconv_ParseFloat {W} _ _.
Arguments url_QueryEscape {W} _ _.

(** Computations that talk to the network. *)
Definition M (W A : Type) : Type := W -> A * W.

Definition ret {W A} (a : A) : M W A := fun w => (a, w).

Definition bind {W A B} (c : M W A) (k : A -> M W B) : M W B :=
  fun w => let '(a, w') := c w in k a w'.

Notation "'let*' x ':=' c 'in' k" := (bind c (fun x => k))
  (at level 10, x name, c at level 100, k at level 200).

(** ** Package [weather] *)

Definition NWSAPIBase : string := "https://api.weather.gov".
Definition UserAgent : string := "weather-app/1.0".

(** [type APIClient struct { client *http.Client }] *)
Record APIClient : Type := { client : Client }.

Definition NewAPIClient : APIClient :=
  {| client := {| Timeout := 30 |} |}.

(** The separator given to [strings.Join] by both pipelines. *)
Definition separator : string := LF +:+ "---" +:+ LF.

(** The degree sign of the forecast template, two bytes in UTF-8. *)
Definition degree : string := String "194" (String "176" EmptyString).

(** The [fmt.Sprintf] call of [formatAlert]: five [%s] verbs, one per
    line, between a leading and a trailing newline. *)
Definition alert_template
    (event areaDesc severity description instruction : string) : string :=
  LF +:+ "Event: " +:+ event +:+ LF +:+
  "Area: " +:+ areaDesc +:+ LF +:+
  "Severity: " +:+ severity +:+ LF +:+
  "Description: " +:+ description +:+ LF +:+
  "Instructions: " +:+ instruction +:+ LF.

(** The [fmt.Sprintf] call of [GetForecast]: the temperature goes through
    the verb [%.0f], the other five arguments through [%s]. *)
Definition forecast_template
    (name : string) (temperature : float64)
    (temperatureUnit windSpeed windDirection detailedForecast : string)
  : string :=
  LF +:+ name +:+ ":" +:+ LF +:+
  "Temperature: " +:+ FormatFloat_f 0 temperature +:+ degree +:+
    temperatureUnit +:+ LF +:+
  "Wind: " +:+ windSpeed +:+ " " +:+ windDirection +:+ LF +:+
  "Forecast: " +:+ detailedForecast +:+ LF.

(** [formatAlert]: an alert feature as a readable string. *)
Definition formatAlert (feature : gmap string json) : string :=
  let '(props, ok) := assert_map (index feature "properties") in
  if negb ok then "Error: Invalid alert format"
  else
    let event := (assert_string (index props "event")).1 in
    let event := if String.eqb event "" then "Unknown" else event in
    let areaDesc := (assert_string (index props "areaDesc")).1 in
    let areaDesc := if String.eqb areaDesc "" then "Unknown" else areaDesc in
    let severity := (assert_string (index props "severity")).1 in
    let severity := if String.eqb severity "" then "Unknown" else severity in
    let description := (assert_string (index props "description")).1 in
    let description :=
      if String.eqb description "" then "No description available"
      else description in
    let instruction := (assert_string (index props "instruction")).1 in
    let instruction :=
      if String.eqb instruction "" then "No specific instructions provided"
      else instruction in
    alert_template event areaDesc severity description instruction.

(** The body of the [for _, f := range features] loop of [GetAlerts]:
    one iteration appends a block when [f] is a map, else nothing. *)
Definition alerts_step (alerts : list string) (f : json) : list string :=
  let '(feature, ok) := assert_map f in
  if ok then (alerts ++ [formatAlert feature])%list else alerts.

(** The body of the [for _, p := range periods] loop of [GetForecast]. *)
Definition forecasts_step (forecasts : list string) (p : json) : list string :=
  let '(period, ok) := assert_map p in
  if negb ok then forecasts (* continue *)
  else
    let name := (assert_string (index period "name")).1 in
    let temperature := (assert_float64 (index period "temperature")).1 in
    let temperatureUnit := (assert_string (index period "temperatureUnit")).1 in
    let windSpeed := (assert_string (index period "windSpeed")).1 in
    let windDirection := (assert_string (index period "windDirection")).1 in
    let detailedForecast :=
      (assert_string (index period "detailedForecast")).1 in
    let forecast :=
      forecast_template name temperature temperatureUnit windSpeed
        windDirection detailedForecast in
    (forecasts ++ [forecast])%list.

Section Pipelines.
Context {W : Type} (P : Platform W).

(** [http.NewRequest(method, url, nil)]. *)
Definition http_NewRequest (method url : string) : result Request :=
  match url_Parse P url with
  | Some err => Err err
  | None =>
      Ok {| req_Method := method; req_URL := url;
            req_RawQuery := None; req_Header := [] |}
  end.

Definition set_Header (req : Request) (key value : string) : Request :=
  {| req_Method := req_Method req; req_URL := req_URL req;
     req_RawQuery := req_RawQuery req;
     req_Header := Header_Set (req_Header req) key value |}.

Definition set_RawQuery (req : Request) (q : string) : Request :=
  {| req_Method := req_Method req; req_URL := req_URL req;
     req_RawQuery := Some q; req_Header := req_Header req |}.

(** [q.Encode()]: [key=value] pairs joined by [&], sorted by key. *)
Definition Values_Encode (v : Values) : string :=
  Join (map (fun kv => url_QueryEscape P kv.1 +:+ "=" +:+
                       url_QueryEscape P kv.2) (sort_by_key v)) "&".

(** [makeNWSRequest]: one GET to the NWS API, decoded. *)
Definition makeNWSRequest (c : APIClient) (url : string)
  : M W (result (gmap string json)) :=
  match http_NewRequest "GET" url with
  | Err err => ret (Err err)
  | Ok req =>
      let req := set_Header req "User-Agent" UserAgent in
      let req := set_Header req "Accept" "application/geo+json" in
      let* resp := client_Do P (client c) req in
      match resp with
      | Err err => ret (Err err)
      | Ok resp =>
          if negb (StatusCode resp =? StatusOK) then
            ret (Err ("API request failed with status: " +:+
                      FormatInt (StatusCode resp)))
          else
            match Body resp with
            | Err err => ret (Err err)
            | Ok body =>
                match json_Unmarshal_map P body with
                | Err err => ret (Err err)
                | Ok result => ret (Ok result)
                end
            end
      end
  end.

(** [GetAlerts]: weather alerts for a US state. *)
Definition GetAlerts (state : string) : M W (string * option error) :=
  let client := NewAPIClient in
  let url := NWSAPIBase +:+ "/alerts/active/area/" +:+ state in
  let* data := makeNWSRequest client url in
  match data with
  | Err err => ret ("Unable to fetch alerts.", Some err)
  | Ok data =>
      let '(features, ok) := assert_slice (index data "features") in
      if negb ok then
        ret ("No alerts found or invalid response format.", None)
      else if (length features =? 0)%nat then
        ret ("No active alerts for this state.", None)
      else
        let alerts := fold_left alerts_step features [] in
        ret (Join alerts separator, None)
  end.

(** [GetForecast]: weather forecast for a pair of coordinates. *)
Definition GetForecast (latitude longitude : float64)
  : M W (string * option error) :=
  let client := NewAPIClient in
  let pointsURL :=
    NWSAPIBase +:+ "/points/" +:+ FormatFloat_f 6 latitude +:+ "," +:+
    FormatFloat_f 6 longitude in
  let* pointsData := makeNWSRequest client pointsURL in
  match pointsData with
  | Err err => ret ("Unable to fetch forecast data for this location.", Some err)
  | Ok pointsData =>
      let '(properties, ok) := assert_map (index pointsData "properties") in
      if negb ok then ret ("Invalid response format from weather API.", None)
      else
        let '(forecastURL, ok) :=
          assert_string (index properties "forecast") in
        if negb ok then ret ("Unable to retrieve forecast URL.", None)
        else
          let* forecastData := makeNWSRequest client forecastURL in
          match forecastData with
          | Err err => ret ("Unable to fetch detailed forecast.", Some err)
          | Ok forecastData =>
              let '(forecastProps, ok) :=
                assert_map (index forecastData "properties") in
              if negb ok then ret ("Invalid forecast data format.", None)
              else
                let '(periods, ok) :=
                  assert_slice (index forecastProps "periods") in
                if negb ok then ret ("Invalid forecast periods data.", None)
                else
                  let forecasts := fold_left forecasts_step periods [] in
                  ret (Join forecasts separator, None)
          end
  end.

(** [GeocodeCity]: a city name to latitude and longitude. *)
Definition GeocodeCity (city state : string)
  : M W (float64 * float64 * option error) :=
  let client := {| Timeout := 10 |} in
  let query := city in
  let query := if negb (String.eqb state "") then city +:+ ", " +:+ state
               else query in
  let baseURL := "https://nominatim.openstreetmap.org/search" in
  match http_NewRequest "GET" baseURL with
  | Err err => ret (Float64.zero, Float64.zero, Some err)
  | Ok req =>
      let q : Values := [] (* req.URL.Query() of a URL without query *) in
      let q := Values_Add q "q" query in
      let q := Values_Add q "format" "json" in
      let q := Values_Add q "limit" "1" in
      let req := set_RawQuery req (Values_Encode q) in
      let req := set_Header req "User-Agent" UserAgent in
      let* resp := client_Do P client req in
      match resp with
      | Err err => ret (Float64.zero, Float64.zero, Some err)
      | Ok resp =>
          if negb (StatusCode resp =? StatusOK) then
            ret (Float64.zero, Float64.zero,
                 Some ("geocoding request failed with status: " +:+
                       FormatInt (StatusCode resp)))
          else
            match Body resp with
            | Err err => ret (Float64.zero, Float64.zero, Some err)
            | Ok body =>
                match json_Unmarshal_geo P body with
                | Err err => ret (Float64.zero, Float64.zero, Some err)
                | Ok results =>
                    match results with
                    | [] =>
                        ret (Float64.zero, Float64.zero,
                             Some ("no results found for location: " +:+
                                   query))
                    | results_0 :: _ =>
                        match strconv_ParseFloat P (Lat results_0) with
                        | Err err =>
                            ret (Float64.zero, Float64.zero, Some err)
                        | Ok lat =>
                            match strconv_ParseFloat P (Lon results_0) with
                            | Err err =>
                                ret (Float64.zero, Float64.zero, Some err)
                            | Ok lon => ret (lat, lon, None)
                            end
                        end
                    end
                end
            end
      end
  end.

(** [GetForecastByCity]: geocode, then forecast. *)
Definition GetForecastByCity (city state : string)
  : M W (string * option error) :=
  let* g := GeocodeCity city state in
  let '(lat, lon, err) := g in
  match err with
  | Some err =>
      ret ("Unable to find coordinates for " +:+ city +:+
           (if negb (String.eqb state "") then ", " +:+ state else "") +:+
           ".", Some err)
  | None => GetForecast lat lon
  end.

End Pipelines.

(** ** Package [net/http], server side *)

(** What a handler has written so far: the status line once committed,
    the header map and the body bytes. *)
Record ResponseWriter : Type := {
  w_Code : option Z;
  w_Header : Header;
  w_Body : string
}.

Definition new_ResponseWriter : ResponseWriter :=
  {| w_Code := None; w_Header := []; w_Body := "" |}.

(** [w.Header().Set(key, value)]. *)
Definition w_Header_Set (w : ResponseWriter) (key value : string)
  : ResponseWriter :=
  {| w_Code := w_Code w; w_Header := Header_Set (w_Header w) key value;
     w_Body := w_Body w |}.

(** [w.WriteHeader(code)]: only the first call counts. *)
Definition WriteHeader (w : ResponseWriter) (code : Z) : ResponseWriter :=
  match w_Code w with
  | Some _ => w
  | None => {| w_Code := Some code; w_Header := w_Header w; w_Body := w_Body w |}
  end.

(** [w.Write(b)]: commits status 200 when no header was written. *)
Definition Write (w : ResponseWriter) (b : string) : ResponseWriter :=
  let w := WriteHeader w StatusOK in
  {| w_Code := w_Code w; w_Header := w_Header w; w_Body := w_Body w +:+ b |}.

(** [http.Error(w, error, code)]: plain-text headers, the status, then the
    message followed by a newline. *)
Definition http_Error (w : ResponseWriter) (msg : string) (code : Z)
  : ResponseWriter :=
  let w := w_Header_Set w "Content-Type" "text/plain; charset=utf-8" in
  let w := w_Header_Set w "X-Content-Type-Options" "nosniff" in
  let w := WriteHeader w code in
  Write w (msg +:+ LF).

(** The part of [*http.Request] the handlers read: the method and the
    parsed query of the URL. *)
Record InRequest : Type := {
  Method : string;
  URL_Query : Values
}.

Definition MethodGet : string := "GET".

Section Handlers.
Context {W : Type} (P : Platform W).

(** [HandleAlerts]: requests for weather alerts. *)
Definition HandleAlerts (w : ResponseWriter) (r : InRequest)
  : M W ResponseWriter :=
  if negb (String.eqb (Method r) MethodGet) then
    ret (http_Error w "Method not allowed" StatusMethodNotAllowed)
  else
    let state := Values_Get (URL_Query r) "state" in
    if String.eqb state "" then
      ret (http_Error w "State parameter is required" StatusBadRequest)
    else
      let* res := GetAlerts P state in
      let '(alerts, err) := res in
      match err with
      | Some err =>
          ret (http_Error w ("Error fetching alerts: " +:+ err)
                 StatusInternalServerError)
      | None =>
          let w := w_Header_Set w "Content-Type" "text/plain" in
          ret (Write w alerts)
      end.

(** [HandleForecast]: requests for forecasts by coordinates. *)
Definition HandleForecast (w : ResponseWriter) (r : InRequest)
  : M W ResponseWriter :=
  if negb (String.eqb (Method r) MethodGet) then
    ret (http_Error w "Method not allowed" StatusMethodNotAllowed)
  else
    let latStr := Values_Get (URL_Query r) "lat" in
    let lonStr := Values_Get (URL_Query r) "lon" in
    if String.eqb latStr "" || String.eqb lonStr "" then
      ret (http_Error w "Latitude and longitude parameters are required"
             StatusBadRequest)
    else
      match strconv_ParseFloat P latStr with
      | Err _ => ret (http_Error w "Invalid latitude value" StatusBadRequest)
      | Ok lat =>
          match strconv_ParseFloat P lonStr with
          | Err _ =>
              ret (http_Error w "Invalid longitude value" StatusBadRequest)
          | Ok lon =>
              let* res := GetForecast P lat lon in
              let '(forecast, err) := res in
              match err with
              | Some err =>
                  ret (http_Error w ("Error fetching forecast: " +:+ err)
                         StatusInternalServerError)
              | None =>
                  let w := w_Header_Set w "Content-Type" "text/plain" in
                  ret (Write w forecast)
              end
          end
      end.

(** [HandleForecastByCity]: requests for forecasts by city name. *)
Definition HandleForecastByCity (w : ResponseWriter) (r : InRequest)
  : M W ResponseWriter :=
  if negb (String.eqb (Method r) MethodGet) then
    ret (http_Error w "Method not allowed" StatusMethodNotAllowed)
  else
    let city := Values_Get (URL_Query r) "city" in
    if String.eqb city "" then
      ret (http_Error w "City parameter is required" StatusBadRequest)
    else
      let state := Values_Get (URL_Query r) "state" in
      let* res := GetForecastByCity P city state in
      let '(forecast, err) := res in
      match err with
      | Some err =>
          ret (http_Error w ("Error fetching forecast: " +:+ err)
                 StatusInternalServerError)
      | None =>
          let w := w_Header_Set w "Content-Type" "text/plain" in
          ret (Write w forecast)
      end.

End Handlers.

(** ** A stubbed upstream, to run the pipelines on concrete inputs *)

Module Stub.

(** The byte 0x22, the quote of JSON strings. *)
Definition DQ : string := String "034" EmptyString.

Definition quoted (s : string) : string := DQ +:+ s +:+ DQ.

(** An integer literal as a [float64] of that value; other spellings
    are refused by this stub. *)
Definition ParseFloat (s : string) : result float64 :=
  let '(neg, body) :=
    match s with
    | String "-" rest => (true, rest)
    | _ => (false, s)
    end in
  match body with
  | EmptyString => Err ("strconv.ParseFloat: parsing: invalid syntax")
  | _ =>
      match NilZero.uint_of_string body with
      | None => Err ("strconv.ParseFloat: parsing: invalid syntax")
      | Some u =>
          match N.of_uint u with
          | N0 => Ok (S754_zero neg)
          | Npos m => Ok (S754_finite neg m 0)
          end
      end
  end.

(** A decoder that knows a finite table of bodies. *)
Fixpoint decode {A} (table : list (string * A)) (body : string) : result A :=
  match table with
  | [] => Err "invalid character looking for beginning of value"
  | (b, v) :: rest => if String.eqb b body then Ok v else decode rest body
  end.

(** The upstream answers by URL alone; the state counts the calls. *)
Definition platform
    (route : string -> result Response)
    (maps : list (string * gmap string json))
    (geo : list (string * list GeocodingResult)) : Platform nat :=
  {| url_Parse := fun _ => None;
     client_Do := fun _ req n => (route (req_URL req), S n);
     json_Unmarshal_map := decode maps;
     json_Unmarshal_geo := decode geo;
     strconv_ParseFloat := ParseFloat;
     url_QueryEscape := fun s => s |}.

Definition ok_body (body : string) : result Response :=
  Ok {| StatusCode := 200; Body := Ok body |}.

Definition status_only (code : Z) : result Response :=
  Ok {| StatusCode := code; Body := Ok "" |}.

(** An alert with every field, and one without severity. *)
Definition full_alert : json :=
  JObj {[ "properties" := JObj (
    <["event" := JStr "Flood Warning"]> (
    <["areaDesc" := JStr "Napa"]> (
    <["severity" := JStr "Severe"]> (
    <["description" := JStr "River rising"]> (
    <["instruction" := JStr "Move to higher ground"]> ∅))))) ]}.

Definition bare_alert : json :=
  JObj {[ "properties" := JObj (<["event" := JStr "Frost Advisory"]> ∅) ]}.

(** Alerts bodies: two alerts; a list holding a string; an empty list;
    no list at all. *)
Definition body_two_alerts : string :=
  "{" +:+ quoted "features" +:+ ":[{...},{...}]}".
Definition body_string_feature : string :=
  "{" +:+ quoted "features" +:+ ":[" +:+ quoted "storm" +:+ "]}".
Definition body_no_alerts : string :=
  "{" +:+ quoted "features" +:+ ":[]}".
Definition body_no_features : string :=
  "{" +:+ quoted "title" +:+ ":" +:+ quoted "none" +:+ "}".

Definition alerts_table : list (string * gmap string json) :=
  [ (body_two_alerts, {[ "features" := JArr [full_alert; bare_alert] ]});
    (body_string_feature, {[ "features" := JArr [JStr "storm"] ]});
    (body_no_alerts, {[ "features" := JArr [] ]});
    (body_no_features, {[ "title" := JStr "none" ]}) ].

(** Every alerts URL answers 200 with the given body. *)
Definition alerts_platform (body : string) : Platform nat :=
  platform (fun _ => ok_body body) alerts_table [].

(** Every URL answers with the given status and an empty body. *)
Definition failing_platform (code : Z) : Platform nat :=
  platform (fun _ => status_only code) [] [].

(** Forecast bodies: the point metadata, the forecast with two periods
    (the second with a name only), and a point answer without
    [properties]. *)
Definition forecast_url : string :=
  "https://api.weather.gov/gridpoints/MTR/85,105/forecast".

Definition body_points : string :=
  "{" +:+ quoted "properties" +:+ ":{" +:+ quoted "forecast" +:+ ":" +:+
  quoted forecast_url +:+ "}}".
Definition body_forecast : string :=
  "{" +:+ quoted "properties" +:+ ":{" +:+ quoted "periods" +:+
  ":[{...},{...}]}}".
Definition body_points_bare : string :=
  "{" +:+ quoted "status" +:+ ":404}".

Definition tonight : json :=
  JObj (<["name" := JStr "Tonight"]> (
        <["temperature" := JNum (S754_finite false 109 (-1))]> (
        <["temperatureUnit" := JStr "F"]> (
        <["windSpeed" := JStr "5 mph"]> (
        <["windDirection" := JStr "NW"]> (
        <["detailedForecast" := JStr "Clear."]> ∅)))))).

Definition monday : json := JObj (<["name" := JStr "Monday"]> ∅).

Definition points_data : gmap string json :=
  {[ "properties" := JObj {[ "forecast" := JStr forecast_url ]} ]}.

Definition forecast_data : gmap string json :=
  {[ "properties" := JObj {[ "periods" := JArr [tonight; monday] ]} ]}.

Definition points_data_bare : gmap string json :=
  {[ "status" := JNum (S754_finite false 404 0) ]}.

Definition forecast_table : list (string * gmap string json) :=
  [ (body_points, points_data);
    (body_forecast, forecast_data);
    (body_points_bare, points_data_bare) ].

(** The forecast URL answers with the forecast, any other URL with the
    given point answer. *)
Definition forecast_platform (points_body : string) : Platform nat :=
  platform (fun url => if String.eqb url forecast_url
                       then ok_body body_forecast else ok_body points_body)
    forecast_table [].

(** The coordinates 37, -122. *)
Definition lat37 : float64 := S754_finite false 37 0.
Definition lon122 : float64 := S754_finite true 122 0.

(** A geocoder answer with two candidates, and one with none. *)
Definition body_two_places : string :=
  "[{" +:+ quoted "lat" +:+ ":" +:+ quoted "47" +:+ "," +:+
  quoted "lon" +:+ ":" +:+ quoted "-122" +:+ "},{...}]".
Definition body_no_places : string := "[]".

Definition geo_table : list (string * list GeocodingResult) :=
  [ (body_two_places,
     [ {| Lat := "47"; Lon := "-122" |}; {| Lat := "10"; Lon := "20" |} ]);
    (body_no_places, []) ].

Definition geocoder_platform (body : string) : Platform nat :=
  platform (fun _ => ok_body body) [] geo_table.

End Stub.

(** ** Vocabulary of the statements *)

(** The map-shaped elements of a decoded list, in list order. *)
Definition maps_of (l : list json) : list (gmap string json) :=
  omap (fun v => match v with JObj m => Some m | _ => None end) l.

Definition is_map (v : json) : Prop := exists m, v = JObj m.

Definition is_map_b (v : json) : bool :=
  match v with JObj _ => true | _ => false end.

(** The request [makeNWSRequest] sends for a URL. *)
Definition nws_request (url : string) : Request :=
  set_Header
    (set_Header {| req_Method := "GET"; req_URL := url;
                   req_RawQuery := None; req_Header := [] |}
       "User-Agent" UserAgent)
    "Accept" "application/geo+json".

(** The query [GeocodeCity] looks up, and the request it sends for it. *)
Definition geocode_query (city state : string) : string :=
  if decide (state = "") then city else city +:+ ", " +:+ state.

Definition geocode_request {W} (P : Platform W) (query : string) : Request :=
  set_Header
    (set_RawQuery {| req_Method := "GET";
                     req_URL := "https://nominatim.openstreetmap.org/search";
                     req_RawQuery := None; req_Header := [] |}
       (Values_Encode P [("q", query); ("format", "json"); ("limit", "1")]))
    "User-Agent" UserAgent.

(** The URL of the point metadata, as [GetForecast] builds it. *)
Definition points_url (latitude longitude : float64) : string :=
  NWSAPIBase +:+ "/points/" +:+ FormatFloat_f 6 latitude +:+ "," +:+
  FormatFloat_f 6 longitude.

(** A period's fields, each read with the zero value as fallback. *)
Definition string_or_empty (period : gmap string json) (key : string)
  : string :=
  match period !! key with Some (JStr s) => s | _ => "" end.

Definition number_or_zero (period : gmap string json) (key : string)
  : float64 :=
  match period !! key with Some (JNum f) => f | _ => S754_zero false end.

Definition render_period (period : gmap string json) : string :=
  forecast_template
    (string_or_empty period "name")
    (number_or_zero period "temperature")
    (string_or_empty period "temperatureUnit")
    (string_or_empty period "windSpeed")
    (string_or_empty period "windDirection")
    (string_or_empty period "detailedForecast").

(** What [GetForecast] makes of a decoded forecast answer. *)
Definition forecast_text (forecastData : gmap string json)
  : string * option error :=
  match forecastData !! "properties" with
  | Some (JObj forecastProps) =>
      match forecastProps !! "periods" with
      | Some (JArr periods) =>
          (Join (map render_period (maps_of periods)) separator, None)
      | _ => ("Invalid forecast periods data.", None)
      end
  | _ => ("Invalid forecast data format.", None)
  end.

(** [n] is an integer nearest to [m * 2^e]: twice the distance is at most
    one, both sides scaled by the denominator of [m * 2^e]. *)
Definition nearest_integer (m : positive) (e : Z) (n : Z) : Prop :=
  2 * Z.abs (n * 2 ^ Z.max 0 (- e) - Z.pos m * 2 ^ Z.max 0 e)
  <= 2 ^ Z.max 0 (- e).

(** The bytes of a forecast block, written out: the newline 0A and the
    degree sign C2 B0. *)
Definition byte_0A : string := String "010" EmptyString.
Definition bytes_C2_B0 : string := String "194" (String "176" EmptyString).

(** The text between two forecast blocks: three dashes on a line of
    their own. *)
Definition dashes : string := byte_0A +:+ "---" +:+ byte_0A.

(** The block of a period, byte for byte: the name and a colon; the
    temperature text, the degree sign and the unit; the wind speed, a
    space and the wind direction; the narrative. *)
Definition period_block
    (name temperature unit windSpeed windDirection narrative : string)
  : string :=
  byte_0A +:+ name +:+ ":" +:+ byte_0A +:+
  "Temperature: " +:+ temperature +:+ bytes_C2_B0 +:+ unit +:+ byte_0A +:+
  "Wind: " +:+ windSpeed +:+ " " +:+ windDirection +:+ byte_0A +:+
  "Forecast: " +:+ narrative +:+ byte_0A.

(** [n] is the rounding of [m * 2^e] to an integer: a nearest integer,
    and the even one when two integers are equally near. *)
Definition is_rounding (m : positive) (e : Z) (n : Z) : Prop :=
  0 <= n /\
  nearest_integer m e n /\
  (2 * Z.abs (n * 2 ^ Z.max 0 (- e) - Z.pos m * 2 ^ Z.max 0 e)
   = 2 ^ Z.max 0 (- e) -> Z.even n = true).

(** [t] is the temperature [f] rounded to an integer, in decimal: the
    digits of the rounding of its magnitude, after a minus sign when [f]
    is negative. The values that are no numbers are named. *)
Definition shows_temperature (f : float64) (t : string) : Prop :=
  match f with
  | S754_zero negative => t = (if negative then "-0" else "0")
  | S754_finite negative m e =>
      exists n : Z,
        is_rounding m e n /\
        t = (if negative then "-" else "") +:+
            NilZero.string_of_uint (N.to_uint (Z.to_N n))
  | S754_infinity negative => t = (if negative then "-Inf" else "+Inf")
  | S754_nan => t = "NaN"
  end.

(** [block] is what the claim says of the period: its fields in the
    layout of [period_block], a field that is missing or of another type
    read as the empty string or as zero. *)
Definition shows_period (period : gmap string json) (block : string) : Prop :=
  exists t : string,
    shows_temperature (number_or_zero period "temperature") t /\
    block = period_block (string_or_empty period "name") t
              (string_or_empty period "temperatureUnit")
              (string_or_empty period "windSpeed")
              (string_or_empty period "windDirection")
              (string_or_empty period "detailedForecast").

(** The string a field of [props] holds, when it holds a non-empty one. *)
Definition field_or (props : gmap string json) (key placeholder : string)
  : string :=
  match props !! key with
  | Some (JStr s) => if decide (s = "") then placeholder else s
  | _ => placeholder
  end.

Definition missing_or_not_string (props : gmap string json) (key : string)
  : Prop :=
  forall s, props !! key <> Some (JStr s).

(** The five alert fields: key, label of the rendered line, placeholder. *)
Definition alert_fields : list (string * string * string) :=
  [ ("event", "Event: ", "Unknown");
    ("areaDesc", "Area: ", "Unknown");
    ("severity", "Severity: ", "Unknown");
    ("description", "Description: ", "No description available");
    ("instruction", "Instructions: ", "No specific instructions provided") ].

(** A text is made of one alert block per element of [features]. *)
Definition one_block_per_element (features : list json) (text : string)
  : Prop :=
  exists blocks : list string,
    length blocks = length features /\
    Forall (fun b => exists feature, b = formatAlert feature) blocks /\
    text = Join blocks separator.

(** ** Further stubbed upstreams *)

Module Fixtures.

(** A platform whose [url.Parse] refuses a URL that holds a newline, as
    Go refuses control characters; the upstream answers by URL alone. *)
Definition strict_platform
    (route : string -> result Response)
    (maps : list (string * gmap string json))
    (geo : list (string * list GeocodingResult)) : Platform nat :=
  {| url_Parse := fun url =>
       if containsb url LF
       then Some "net/url: invalid control character in URL" else None;
     client_Do := fun _ req n => (route (req_URL req), S n);
     json_Unmarshal_map := Stub.decode maps;
     json_Unmarshal_geo := Stub.decode geo;
     strconv_ParseFloat := Stub.ParseFloat;
     url_QueryEscape := fun s => s |}.

Definition strict_alerts_platform : Platform nat :=
  strict_platform (fun _ => Stub.ok_body Stub.body_two_alerts)
    Stub.alerts_table [].

(** A forecast answer whose list of periods is empty. *)
Definition body_no_periods : string :=
  "{" +:+ Stub.quoted "properties" +:+ ":{" +:+ Stub.quoted "periods" +:+
  ":[]}}".

Definition forecast_data_empty : gmap string json :=
  {[ "properties" := JObj {[ "periods" := JArr [] ]} ]}.

Definition empty_forecast_platform : Platform nat :=
  Stub.platform
    (fun url => if String.eqb url Stub.forecast_url
                then Stub.ok_body body_no_periods
                else Stub.ok_body Stub.body_points)
    [ (Stub.body_points, Stub.points_data);
      (body_no_periods, forecast_data_empty) ] [].

(** The forecast URL answers 500, any other URL with the point answer. *)
Definition broken_forecast_platform : Platform nat :=
  Stub.platform
    (fun url => if String.eqb url Stub.forecast_url
                then Stub.status_only 500
                else Stub.ok_body Stub.body_points)
    Stub.forecast_table [].

(** Geocoder, points and forecast behind one upstream. *)
Definition nominatim_url : string :=
  "https://nominatim.openstreetmap.org/search".

Definition city_platform (places : string) : Platform nat :=
  Stub.platform
    (fun url => if String.eqb url nominatim_url then Stub.ok_body places
                else if String.eqb url Stub.forecast_url
                     then Stub.ok_body Stub.body_forecast
                     else Stub.ok_body Stub.body_points)
    Stub.forecast_table Stub.geo_table.

Definition get (query : Values) : InRequest :=
  {| Method := "GET"; URL_Query := query |}.

Definition post (query : Values) : InRequest :=
  {| Method := "POST"; URL_Query := query |}.

End Fixtures.

(** ** Counting the calls of [client.Do] *)

(** [calls P n w w']: [w'] is the state of the network after [n] calls of
    [client.Do] started in [w]. *)
Inductive calls {W : Type} (P : Platform W) : nat -> W -> W -> Prop :=
| calls_none (w : W) : calls P 0 w w
| calls_more (n : nat) (w w' : W) (c : Client) (req : Request) :
    calls P n w w' -> calls P (S n) w (client_Do P c req w').2.

(** Two maps agree on the keys of the five alert fields. *)
Definition same_alert_fields (p q : gmap string json) : Prop :=
  forall key label placeholder,
    (key, label, placeholder) ∈ alert_fields -> p !! key = q !! key.

(** The float has the integer value [k] (in magnitude). *)
Definition integer_valued (m : positive) (e : Z) (k : Z) : Prop :=
  Z.pos m * 2 ^ Z.max 0 e = k * 2 ^ Z.max 0 (- e).

(** What a client of the server sees: an error answer as [http.Error]
    leaves it on a fresh writer, and a plain-text success. *)
Definition plain_error (code : Z) (msg : string) : ResponseWriter :=
  {| w_Code := Some code;
     w_Header := [("Content-Type", "text/plain; charset=utf-8");
                  ("X-Content-Type-Options", "nosniff")];
     w_Body := msg +:+ LF |}.

Definition plain_ok (text : string) : ResponseWriter :=
  {| w_Code := Some StatusOK;
     w_Header := [("Content-Type", "text/plain")];
     w_Body := text |}.

(** The answer made of a pipeline's result: the text on success, the
    prefixed error message on failure. *)
Definition relay (prefix : string) (res : string * option error)
  : ResponseWriter :=
  match res.2 with
  | None => plain_ok res.1
  | Some err => plain_error StatusInternalServerError (prefix +:+ err)
  end.

(** * Properties *)

(** ** Strings *)

Lemma append_nil_l (a : string) : "" +:+ a = a.
Proof. reflexivity. Qed.

Lemma append_cons (x : ascii) (a b : string) :
  String x a +:+ b = String x (a +:+ b).
Proof. reflexivity. Qed.

Lemma append_assoc (a b c : string) : (a +:+ b) +:+ c = a +:+ (b +:+ c).
Proof.
  induction a as [|x a IH]; [reflexivity|].
  rewrite !append_cons. f_equal. exact IH.
Qed.

Lemma append_empty_r (a : string) : a +:+ "" = a.
Proof.
  induction a as [|x a IH]; [reflexivity|].
  rewrite append_cons. f_equal. exact IH.
Qed.

Lemma prefix_append (p s : string) : String.prefix p (p +:+ s) = true.
Proof.
  induction p as [|x p IH].
  - now destruct s.
  - rewrite append_cons. simpl.
    destruct (ascii_dec x x) as [_|Hne]; [exact IH | now destruct Hne].
Qed.

Lemma containsb_here (s sub : string) :
  String.prefix sub s = true -> containsb s sub = true.
Proof. intros H. destruct s; cbn [containsb]; rewrite H; reflexivity. Qed.

Lemma Contains_containsb (s sub : string) :
  Contains s sub -> containsb s sub = true.
Proof.
  intros (pre & post & ->).
  induction pre as [|x pre IH].
  - rewrite append_nil_l. apply containsb_here, prefix_append.
  - rewrite append_cons. cbn [containsb]. rewrite IH. apply orb_true_r.
Qed.

Lemma Contains_between (pre s post : string) : Contains (pre +:+ s +:+ post) s.
Proof. now exists pre, post. Qed.

Lemma Contains_suffix (pre s : string) : Contains (pre +:+ s) s.
Proof. exists pre, "". now rewrite append_empty_r. Qed.

Lemma Contains_append_l (a s sub : string) :
  Contains s sub -> Contains (a +:+ s) sub.
Proof.
  intros (pre & post & ->). exists (a +:+ pre), post.
  now rewrite append_assoc.
Qed.

Lemma Contains_append_r (a s sub : string) :
  Contains s sub -> Contains (s +:+ a) sub.
Proof.
  intros (pre & post & ->). exists pre, (post +:+ a).
  now rewrite !append_assoc.
Qed.

(** ** The two loops *)

Lemma alerts_loop (features : list json) (acc : list string) :
  fold_left alerts_step features acc
  = (acc ++ map formatAlert (maps_of features))%list.
Proof.
  revert acc. induction features as [|f features IH]; intros acc; simpl.
  - now rewrite app_nil_r.
  - rewrite IH. unfold alerts_step, maps_of.
    destruct f; simpl; try reflexivity.
    now rewrite <- app_assoc.
Qed.

Lemma maps_of_no_map (l : list json) :
  Forall (fun v => ~ is_map v) l -> maps_of l = [].
Proof.
  induction 1 as [|v l Hv _ IH]; [reflexivity|].
  destruct v; try exact IH. destruct Hv. now eexists.
Qed.

Lemma formatAlert_nonempty (feature : gmap string json) :
  formatAlert feature <> "".
Proof.
  unfold formatAlert.
  destruct (assert_map (index feature "properties")) as [props [|]]; simpl;
    discriminate.
Qed.

(** ** [GetAlerts] after a successful fetch *)

Section AlertsProofs.
Context {W : Type} (P : Platform W).

Lemma GetAlerts_fetched state w data w' :
  makeNWSRequest P NewAPIClient
    (NWSAPIBase +:+ "/alerts/active/area/" +:+ state) w = (Ok data, w') ->
  GetAlerts P state w =
  (match data !! "features" with
   | Some (JArr []) => ("No active alerts for this state.", None)
   | Some (JArr features) =>
       (Join (map formatAlert (maps_of features)) separator, None)
   | _ => ("No alerts found or invalid response format.", None)
   end, w').
Proof.
  intros H. unfold GetAlerts, bind. rewrite H. unfold index.
  destruct (data !! "features") as [[| | | |features|]|]; simpl;
    try reflexivity.
  destruct features as [|f features]; [reflexivity|].
  cbv [length Nat.eqb ret]. now rewrite alerts_loop.
Qed.

(** C4. When the decoded alerts response has no [features] list,
    [GetAlerts] returns the fixed text "No alerts found or invalid response
    format." with a nil error; when the list is present and empty it
    returns exactly "No active alerts for this state." with a nil error,
    which is not the join of an empty list of blocks. *)
Theorem GetAlerts_without_alerts state w data w' :
  makeNWSRequest P NewAPIClient
    (NWSAPIBase +:+ "/alerts/active/area/" +:+ state) w = (Ok data, w') ->
  ((forall l, data !! "features" <> Some (JArr l)) ->
   (GetAlerts P state w).1
   = ("No alerts found or invalid response format.", None)) /\
  (data !! "features" = Some (JArr []) ->
   (GetAlerts P state w).1 = ("No active alerts for this state.", None) /\
   (GetAlerts P state w).1.1 <> Join [] separator).
Proof.
  intros H. rewrite (GetAlerts_fetched _ _ _ _ H). split.
  - intros Hno. destruct (data !! "features") as [[| | | |l|]|];
      try reflexivity.
    now destruct (Hno l).
  - intros ->. split; [reflexivity | discriminate].
Qed.

(** C10. A non-empty [features] list without any map-shaped element makes
    [GetAlerts] return the empty string with a nil error: the elements are
    skipped before the join, and the result is neither the "no active
    alerts" text nor an error. *)
Theorem GetAlerts_only_non_maps state w data w' features :
  makeNWSRequest P NewAPIClient
    (NWSAPIBase +:+ "/alerts/active/area/" +:+ state) w = (Ok data, w') ->
  data !! "features" = Some (JArr features) ->
  features <> [] ->
  Forall (fun f => ~ is_map f) features ->
  (GetAlerts P state w).1 = ("", None) /\
  (GetAlerts P state w).1.1 <> "No active alerts for this state.".
Proof.
  intros H Hf Hne Hall. rewrite (GetAlerts_fetched _ _ _ _ H), Hf.
  destruct features as [|f features]; [now destruct Hne|].
  rewrite (maps_of_no_map _ Hall). split; [reflexivity | discriminate].
Qed.

(** C1, amended. When the [features] list is present and non-empty,
    [GetAlerts] returns, with a nil error, the blocks of the map-shaped
    elements of the list, one [formatAlert] block each, in list order and
    joined by the separator; elements that are not maps give no block.
    No shape of a feature's fields makes it fail. *)
Theorem GetAlerts_blocks state w data w' features :
  makeNWSRequest P NewAPIClient
    (NWSAPIBase +:+ "/alerts/active/area/" +:+ state) w = (Ok data, w') ->
  data !! "features" = Some (JArr features) ->
  features <> [] ->
  (GetAlerts P state w).1
  = (Join (map formatAlert (maps_of features)) separator, None) /\
  length (map formatAlert (maps_of features))
  = length (filter is_map_b features).
Proof.
  intros H Hf Hne. rewrite (GetAlerts_fetched _ _ _ _ H), Hf.
  destruct features as [|f features]; [now destruct Hne|].
  split; [reflexivity|].
  rewrite length_map. generalize (f :: features). clear.
  induction l as [|v l IH]; [reflexivity|].
  destruct v; simpl; try exact IH. now rewrite <- IH.
Qed.

End AlertsProofs.

(** The amended C1 on a response with two alerts. *)
Lemma GetAlerts_blocks_witness :
  let P := Stub.alerts_platform Stub.body_two_alerts in
  let features := [Stub.full_alert; Stub.bare_alert] in
  (makeNWSRequest P NewAPIClient
     (NWSAPIBase +:+ "/alerts/active/area/" +:+ "CA") 0%nat
   = (Ok {[ "features" := JArr features ]}, 1%nat) /\
   ({[ "features" := JArr features ]} : gmap string json) !! "features"
   = Some (JArr features) /\
   features <> []) /\
  (GetAlerts P "CA" 0%nat).1
  = (Join (map formatAlert (maps_of features)) separator, None) /\
  length (map formatAlert (maps_of features))
  = length (filter is_map_b features).
Proof.
  assert (H1 : makeNWSRequest (Stub.alerts_platform Stub.body_two_alerts)
                 NewAPIClient
                 (NWSAPIBase +:+ "/alerts/active/area/" +:+ "CA") 0%nat
               = (Ok {[ "features" := JArr [Stub.full_alert; Stub.bare_alert] ]},
                  1%nat)) by (vm_compute; reflexivity).
  assert (H2 : ({[ "features" := JArr [Stub.full_alert; Stub.bare_alert] ]}
                : gmap string json) !! "features"
               = Some (JArr [Stub.full_alert; Stub.bare_alert]))
    by (vm_compute; reflexivity).
  assert (H3 : [Stub.full_alert; Stub.bare_alert] <> []) by discriminate.
  split; [now repeat split|].
  exact (GetAlerts_blocks _ "CA" 0%nat _ 1%nat _ H1 H2 H3).
Defined.

(** C1 as stated fails: a response whose [features] list holds one
    string gives the empty text, which is not one block per element. *)
Lemma GetAlerts_one_block_per_element_fails :
  let P := Stub.alerts_platform Stub.body_string_feature in
  let features := [JStr "storm"] in
  makeNWSRequest P NewAPIClient
    (NWSAPIBase +:+ "/alerts/active/area/" +:+ "CA") 0%nat
  = (Ok {[ "features" := JArr features ]}, 1%nat) /\
  features <> [] /\
  (GetAlerts P "CA" 0%nat).1 = ("", None) /\
  ~ one_block_per_element features (GetAlerts P "CA" 0%nat).1.1.
Proof.
  repeat split; try (vm_compute; reflexivity); try discriminate.
  intros (blocks & Hlen & Hall & Htext).
  destruct blocks as [|b [|b' blocks]]; try discriminate Hlen.
  inversion Hall as [|? ? (feature & ->) _]; subst.
  vm_compute in Htext. symmetry in Htext.
  revert Htext. apply formatAlert_nonempty.
Qed.

(** C4 on a response with an empty list. *)
Lemma GetAlerts_without_alerts_witness :
  let P := Stub.alerts_platform Stub.body_no_alerts in
  makeNWSRequest P NewAPIClient
    (NWSAPIBase +:+ "/alerts/active/area/" +:+ "CA") 0%nat
  = (Ok {[ "features" := JArr [] ]}, 1%nat) /\
  (GetAlerts P "CA" 0%nat).1 = ("No active alerts for this state.", None).
Proof.
  assert (H1 : makeNWSRequest (Stub.alerts_platform Stub.body_no_alerts)
                 NewAPIClient
                 (NWSAPIBase +:+ "/alerts/active/area/" +:+ "CA") 0%nat
               = (Ok {[ "features" := JArr [] ]}, 1%nat))
    by (vm_compute; reflexivity).
  split; [exact H1|].
  apply (GetAlerts_without_alerts _ "CA" 0%nat _ 1%nat H1).
  vm_compute; reflexivity.
Defined.

(** C10 on a response whose only feature is a string. *)
Lemma GetAlerts_only_non_maps_witness :
  let P := Stub.alerts_platform Stub.body_string_feature in
  (makeNWSRequest P NewAPIClient
     (NWSAPIBase +:+ "/alerts/active/area/" +:+ "CA") 0%nat
   = (Ok {[ "features" := JArr [JStr "storm"] ]}, 1%nat) /\
   [JStr "storm"] <> [] /\
   Forall (fun f => ~ is_map f) [JStr "storm"]) /\
  (GetAlerts P "CA" 0%nat).1 = ("", None).
Proof.
  assert (H1 : makeNWSRequest (Stub.alerts_platform Stub.body_string_feature)
                 NewAPIClient
                 (NWSAPIBase +:+ "/alerts/active/area/" +:+ "CA") 0%nat
               = (Ok {[ "features" := JArr [JStr "storm"] ]}, 1%nat))
    by (vm_compute; reflexivity).
  assert (H3 : [JStr "storm"] <> []) by discriminate.
  assert (H4 : Forall (fun f => ~ is_map f) [JStr "storm"]).
  { constructor; [|constructor]. intros [m Hm]. discriminate Hm. }
  split; [now repeat split|].
  apply (GetAlerts_only_non_maps _ "CA" 0%nat _ 1%nat [JStr "storm"] H1);
    [vm_compute; reflexivity | exact H3 | exact H4].
Defined.

(** ** [formatAlert] *)

Lemma read_field (props : gmap string json) (key placeholder : string) :
  (let v := (assert_string (index props key)).1 in
   if String.eqb v "" then placeholder else v)
  = field_or props key placeholder.
Proof.
  unfold index, field_or.
  destruct (props !! key) as [[| | |s| |]|]; try reflexivity.
  simpl. destruct (String.eqb_spec s ""); destruct (decide (s = ""));
    congruence.
Qed.

Lemma formatAlert_fields (feature props : gmap string json) :
  feature !! "properties" = Some (JObj props) ->
  formatAlert feature
  = alert_template (field_or props "event" "Unknown")
      (field_or props "areaDesc" "Unknown")
      (field_or props "severity" "Unknown")
      (field_or props "description" "No description available")
      (field_or props "instruction" "No specific instructions provided").
Proof.
  intros H. unfold formatAlert, index at 1. rewrite H. cbn [default assert_map negb].
  now rewrite <- !read_field.
Qed.

Lemma field_or_placeholder (props : gmap string json) key placeholder :
  missing_or_not_string props key -> field_or props key placeholder = placeholder.
Proof.
  intros H. unfold field_or.
  destruct (props !! key) as [[| | |s| |]|] eqn:E; try reflexivity.
  now destruct (H s).
Qed.

Lemma field_or_insert_empty (props : gmap string json) key k placeholder :
  field_or (<[key := JStr ""]> props) k placeholder
  = field_or (delete key props) k placeholder.
Proof.
  unfold field_or. destruct (decide (key = k)) as [->|Hne].
  - now rewrite lookup_insert_eq, lookup_delete_eq.
  - now rewrite lookup_insert_ne, lookup_delete_ne.
Qed.

Lemma field_or_insert_other (props : gmap string json) key v k placeholder :
  (forall s, v <> JStr s) ->
  field_or (<[key := v]> props) k placeholder
  = field_or (delete key props) k placeholder.
Proof.
  intros Hv. unfold field_or. destruct (decide (key = k)) as [->|Hne].
  - rewrite lookup_insert_eq, lookup_delete_eq.
    destruct v; try reflexivity. now destruct (Hv s).
  - now rewrite lookup_insert_ne, lookup_delete_ne.
Qed.

Lemma field_or_delete (props : gmap string json) key placeholder :
  field_or (delete key props) key placeholder = placeholder.
Proof. unfold field_or. now rewrite lookup_delete_eq. Qed.

(** Closes [Contains s sub] given what stands before and after [sub]. *)
Ltac contains_at pre post :=
  exists pre, post;
  rewrite ?append_empty_r, ?append_assoc; reflexivity.

(** C6. A feature whose [properties] map has no [severity] key renders
    the line "Severity: Unknown"; and each of the five fields that is
    missing or is not a string is rendered as its own placeholder, the
    block keeping its five-line layout. *)
Theorem formatAlert_placeholders (feature props : gmap string json) :
  feature !! "properties" = Some (JObj props) ->
  (props !! "severity" = None ->
   Contains (formatAlert feature) (LF +:+ "Severity: Unknown" +:+ LF)) /\
  exists event areaDesc severity description instruction,
    formatAlert feature
    = alert_template event areaDesc severity description instruction /\
    (missing_or_not_string props "event" -> event = "Unknown") /\
    (missing_or_not_string props "areaDesc" -> areaDesc = "Unknown") /\
    (missing_or_not_string props "severity" -> severity = "Unknown") /\
    (missing_or_not_string props "description" ->
     description = "No description available") /\
    (missing_or_not_string props "instruction" ->
     instruction = "No specific instructions provided").
Proof.
  intros H. rewrite (formatAlert_fields _ _ H). split.
  - intros Hsev. unfold field_or at 3. rewrite Hsev. unfold alert_template.
    change (LF +:+ "Severity: Unknown" +:+ LF)
      with (LF +:+ "Severity: " +:+ "Unknown" +:+ LF).
    exists (LF +:+ "Event: " +:+ field_or props "event" "Unknown" +:+ LF +:+
            "Area: " +:+ field_or props "areaDesc" "Unknown"),
           ("Description: " +:+
            field_or props "description" "No description available" +:+ LF +:+
            "Instructions: " +:+
            field_or props "instruction" "No specific instructions provided"
            +:+ LF).
    now rewrite !append_assoc.
  - do 5 eexists. split; [reflexivity|].
    repeat split; apply field_or_placeholder.
Qed.

(** C6 on the stubbed alert that has only an event. *)
Lemma formatAlert_placeholders_witness :
  let props : gmap string json := <["event" := JStr "Frost Advisory"]> ∅ in
  let feature : gmap string json := {[ "properties" := JObj props ]} in
  feature !! "properties" = Some (JObj props) /\
  props !! "severity" = None /\
  Contains (formatAlert feature) (LF +:+ "Severity: Unknown" +:+ LF).
Proof.
  assert (H : ({[ "properties" := JObj (<["event" := JStr "Frost Advisory"]> ∅) ]}
               : gmap string json) !! "properties"
              = Some (JObj (<["event" := JStr "Frost Advisory"]> ∅)))
    by (vm_compute; reflexivity).
  assert (Hs : (<["event" := JStr "Frost Advisory"]> ∅ : gmap string json)
               !! "severity" = None) by (vm_compute; reflexivity).
  split; [exact H|]. split; [exact Hs|].
  exact (proj1 (formatAlert_placeholders _ _ H) Hs).
Defined.

(** C9. In each of the five alert fields, a value that is the empty
    string, or that is not a string, renders exactly as the absent field
    does: the line of the field shows its placeholder. *)
Theorem formatAlert_empty_as_absent
    (feature props : gmap string json) (key label placeholder : string) :
  (key, label, placeholder) ∈ alert_fields ->
  let render p := formatAlert (<["properties" := JObj p]> feature) in
  render (<[key := JStr ""]> props) = render (delete key props) /\
  (forall v, (forall s, v <> JStr s) ->
             render (<[key := v]> props) = render (delete key props)) /\
  Contains (render (delete key props)) (LF +:+ label +:+ placeholder +:+ LF).
Proof.
  intros Hin render. unfold render.
  rewrite !(formatAlert_fields _ _ (lookup_insert_eq _ _ _)).
  split; [now rewrite !field_or_insert_empty|].
  split.
  { intros v Hv.
    rewrite (formatAlert_fields _ _ (lookup_insert_eq _ _ _)).
    now rewrite !(field_or_insert_other _ _ _ _ _ Hv). }
  repeat (apply elem_of_cons in Hin as [Hin|Hin]);
    [injection Hin as -> -> -> .. | now apply elem_of_nil in Hin];
    rewrite field_or_delete; unfold alert_template;
    match goal with
    | |- Contains (LF +:+ "Event: " +:+ ?e +:+ LF +:+ "Area: " +:+ ?a +:+ LF +:+
                   "Severity: " +:+ ?v +:+ LF +:+ "Description: " +:+ ?d +:+
                   LF +:+ "Instructions: " +:+ ?i +:+ LF) _ =>
        set (E := e); set (A := a); set (V := v); set (D := d); set (I := i)
    end.
  - contains_at "" ("Area: " +:+ A +:+ LF +:+ "Severity: " +:+ V +:+ LF +:+
                    "Description: " +:+ D +:+ LF +:+ "Instructions: " +:+ I
                    +:+ LF).
  - contains_at (LF +:+ "Event: " +:+ E)
                ("Severity: " +:+ V +:+ LF +:+ "Description: " +:+ D +:+ LF +:+
                 "Instructions: " +:+ I +:+ LF).
  - contains_at (LF +:+ "Event: " +:+ E +:+ LF +:+ "Area: " +:+ A)
                ("Description: " +:+ D +:+ LF +:+ "Instructions: " +:+ I
                 +:+ LF).
  - contains_at (LF +:+ "Event: " +:+ E +:+ LF +:+ "Area: " +:+ A +:+ LF +:+
                 "Severity: " +:+ V)
                ("Instructions: " +:+ I +:+ LF).
  - contains_at (LF +:+ "Event: " +:+ E +:+ LF +:+ "Area: " +:+ A +:+ LF +:+
                 "Severity: " +:+ V +:+ LF +:+ "Description: " +:+ D) "".
Qed.

(** C9 on the severity field of the stubbed alert. *)
Lemma formatAlert_empty_as_absent_witness :
  ("severity", "Severity: ", "Unknown") ∈ alert_fields /\
  formatAlert (<["properties" :=
                   JObj (<["severity" := JStr ""]>
                           (<["event" := JStr "Frost Advisory"]> ∅))]> ∅)
  = formatAlert (<["properties" :=
                     JObj (delete "severity"
                             (<["event" := JStr "Frost Advisory"]> ∅))]> ∅).
Proof.
  assert (H : ("severity", "Severity: ", "Unknown") ∈ alert_fields).
  { unfold alert_fields. do 2 apply list_elem_of_further.
    apply list_elem_of_here. }
  split; [exact H|].
  exact (proj1 (formatAlert_empty_as_absent ∅
                  (<["event" := JStr "Frost Advisory"]> ∅) _ _ _ H)).
Defined.

(** ** [%.0f]: rounding to the nearest integer *)

Lemma round_half_even_nearest (num den : Z) :
  0 <= num -> 0 < den ->
  0 <= round_half_even num den /\
  2 * Z.abs (round_half_even num den * den - num) <= den.
Proof.
  intros Hnum Hden. unfold round_half_even.
  pose proof (Z.div_mod num den ltac:(lia)) as Hdm.
  pose proof (Z.mod_pos_bound num den Hden) as Hr.
  pose proof (Z.div_pos num den Hnum Hden) as Hq.
  set (q := num / den) in *. set (r := num mod den) in *.
  assert (Hq1 : (q + 1) * den - num = den - r) by nia.
  assert (Hq0 : q * den - num = - r) by nia.
  destruct (Z.ltb_spec (2 * r) den); [rewrite Hq0; lia|].
  destruct (Z.ltb_spec den (2 * r)); [rewrite Hq1; lia|].
  destruct (Z.even q); [rewrite Hq0 | rewrite Hq1]; lia.
Qed.

Lemma round_half_even_tie (num den : Z) :
  0 <= num -> 0 < den ->
  2 * Z.abs (round_half_even num den * den - num) = den ->
  Z.even (round_half_even num den) = true.
Proof.
  intros Hnum Hden. unfold round_half_even.
  pose proof (Z.div_mod num den ltac:(lia)) as Hdm.
  pose proof (Z.mod_pos_bound num den Hden) as Hr.
  set (q := num / den) in *. set (r := num mod den) in *.
  assert (Hq1 : (q + 1) * den - num = den - r) by nia.
  assert (Hq0 : q * den - num = - r) by nia.
  destruct (Z.ltb_spec (2 * r) den); [rewrite Hq0; lia|].
  destruct (Z.ltb_spec den (2 * r)); [rewrite Hq1; lia|].
  destruct (Z.even q) eqn:Hq; intros _; [exact Hq|].
  now rewrite Z.add_1_r, Z.even_succ, <- Z.negb_even, Hq.
Qed.

Lemma scaled_0_rounding (m : positive) (e : Z) : is_rounding m e (scaled 0 m e).
Proof.
  unfold is_rounding, nearest_integer, scaled, magnitude. cbn [Z.of_nat].
  rewrite Z.pow_0_r.
  destruct (Z.leb_spec 0 e) as [He|He].
  - rewrite (Z.max_l 0 (- e)), (Z.max_r 0 e) by lia.
    rewrite Z.pow_0_r, Z.mul_1_r.
    assert (0 <= Z.pos m * 2 ^ e)
      by (apply Z.mul_nonneg_nonneg; [lia | apply Z.pow_nonneg; lia]).
    destruct (round_half_even_nearest (Z.pos m * 2 ^ e) 1) as [? ?];
      [lia | lia |].
    repeat split; try assumption.
    apply round_half_even_tie; lia.
  - rewrite (Z.max_r 0 (- e)), (Z.max_l 0 e) by lia.
    rewrite Z.pow_0_r, !Z.mul_1_r.
    assert (0 < 2 ^ (- e)) by (apply Z.pow_pos_nonneg; lia).
    destruct (round_half_even_nearest (Z.pos m) (2 ^ (- e))) as [? ?];
      [lia | lia |].
    repeat split; try assumption.
    apply round_half_even_tie; lia.
Qed.

Lemma FormatFloat_f_0_shows (f : float64) :
  shows_temperature f (FormatFloat_f 0 f).
Proof.
  destruct f as [s|s| |s m e]; try (destruct s; reflexivity);
    [reflexivity|].
  exists (scaled 0 m e). split; [apply scaled_0_rounding|].
  cbn [FormatFloat_f]. unfold fixed. cbn [Z.of_nat].
  rewrite Z.pow_0_r, Z.div_1_r, append_empty_r.
  now destruct s.
Qed.

(** ** [GetForecast] *)

Lemma read_string (period : gmap string json) (key : string) :
  (assert_string (index period key)).1 = string_or_empty period key.
Proof.
  unfold index, string_or_empty.
  now destruct (period !! key) as [[| | | | |]|].
Qed.

Lemma read_number (period : gmap string json) (key : string) :
  (assert_float64 (index period key)).1 = number_or_zero period key.
Proof.
  unfold index, number_or_zero.
  now destruct (period !! key) as [[| | | | |]|].
Qed.

Lemma forecasts_loop (periods : list json) (acc : list string) :
  fold_left forecasts_step periods acc
  = (acc ++ map render_period (maps_of periods))%list.
Proof.
  revert acc. induction periods as [|p periods IH]; intros acc; simpl.
  - now rewrite app_nil_r.
  - rewrite IH. destruct p; try reflexivity.
    cbn [forecasts_step assert_map negb]. rewrite !read_string, read_number.
    now rewrite <- app_assoc.
Qed.

Section ForecastProofs.
Context {W : Type} (P : Platform W).

Lemma GetForecast_points_fetched lat lon w pointsData w1 :
  makeNWSRequest P NewAPIClient (points_url lat lon) w = (Ok pointsData, w1) ->
  GetForecast P lat lon w =
  match pointsData !! "properties" with
  | Some (JObj properties) =>
      match properties !! "forecast" with
      | Some (JStr forecastURL) =>
          let '(forecastData, w2) :=
            makeNWSRequest P NewAPIClient forecastURL w1 in
          match forecastData with
          | Err err => (("Unable to fetch detailed forecast.", Some err), w2)
          | Ok forecastData => (forecast_text forecastData, w2)
          end
      | _ => (("Unable to retrieve forecast URL.", None), w1)
      end
  | _ => (("Invalid response format from weather API.", None), w1)
  end.
Proof.
  intros H. unfold GetForecast, bind. fold (points_url lat lon). rewrite H.
  unfold index at 1.
  destruct (pointsData !! "properties") as [[| | | | |properties]|];
    try reflexivity.
  cbn [from_option id assert_map negb]. unfold index at 1.
  destruct (properties !! "forecast") as [[| | |forecastURL| |]|];
    try reflexivity.
  cbn [from_option id assert_string negb].
  destruct (makeNWSRequest P NewAPIClient forecastURL w1)
    as [[forecastData|err] w2]; [|reflexivity].
  unfold forecast_text, index at 1.
  destruct (forecastData !! "properties") as [[| | | | |forecastProps]|];
    try reflexivity.
  cbn [from_option id assert_map negb]. unfold index.
  destruct (forecastProps !! "periods") as [[| | | |periods|]|];
    try reflexivity.
  cbn [from_option id assert_slice negb ret]. now rewrite forecasts_loop.
Qed.

(** C3. A points answer without a [properties] map, or without a string
    [forecast] inside it, and a forecast answer without a [properties] map,
    or without a [periods] list inside it, each make [GetForecast] return
    its own fixed text with a nil error; the four texts are pairwise
    different. *)
Theorem GetForecast_soft_failures lat lon w pointsData w1 :
  makeNWSRequest P NewAPIClient (points_url lat lon) w = (Ok pointsData, w1) ->
  ((forall m, pointsData !! "properties" <> Some (JObj m)) ->
   (GetForecast P lat lon w).1
   = ("Invalid response format from weather API.", None)) /\
  (forall properties,
     pointsData !! "properties" = Some (JObj properties) ->
     ((forall u, properties !! "forecast" <> Some (JStr u)) ->
      (GetForecast P lat lon w).1 = ("Unable to retrieve forecast URL.", None))
     /\
     (forall forecastURL forecastData w2,
        properties !! "forecast" = Some (JStr forecastURL) ->
        makeNWSRequest P NewAPIClient forecastURL w1 = (Ok forecastData, w2) ->
        ((forall m, forecastData !! "properties" <> Some (JObj m)) ->
         (GetForecast P lat lon w).1 = ("Invalid forecast data format.", None))
        /\
        (forall forecastProps,
           forecastData !! "properties" = Some (JObj forecastProps) ->
           (forall l, forecastProps !! "periods" <> Some (JArr l)) ->
           (GetForecast P lat lon w).1
           = ("Invalid forecast periods data.", None)))) /\
  NoDup [ "Invalid response format from weather API.";
          "Unable to retrieve forecast URL.";
          "Invalid forecast data format.";
          "Invalid forecast periods data." ].
Proof.
  intros H. rewrite (GetForecast_points_fetched _ _ _ _ _ H).
  split; [|split].
  - intros Hno.
    destruct (pointsData !! "properties") as [[| | | | |m]|]; try reflexivity.
    now destruct (Hno m).
  - intros properties ->. split.
    + intros Hno.
      destruct (properties !! "forecast") as [[| | |u| |]|]; try reflexivity.
      now destruct (Hno u).
    + intros forecastURL forecastData w2 -> ->. unfold forecast_text. split.
      * intros Hno.
        destruct (forecastData !! "properties") as [[| | | | |m]|];
          try reflexivity.
        now destruct (Hno m).
      * intros forecastProps -> Hno.
        destruct (forecastProps !! "periods") as [[| | | |l|]|];
          try reflexivity.
        now destruct (Hno l).
  - repeat constructor; rewrite ?list_elem_of_In; simpl; intuition discriminate.
Qed.

(** C5. With both upstream answers well shaped, [GetForecast] returns,
    with a nil error, one block per period record of the upstream list, in
    the order of that list, the blocks joined by a line of three dashes.
    The block of a period shows its name, its temperature rounded to an
    integer followed by the degree sign and the unit, its wind speed and
    direction, and its narrative, byte for byte as [period_block] lays them
    out; a field that is missing or of another type is shown as the empty
    string, and a temperature that is missing or no number as 0. *)
Theorem GetForecast_periods lat lon w pointsData w1 properties forecastURL
    forecastData w2 forecastProps periods :
  makeNWSRequest P NewAPIClient (points_url lat lon) w = (Ok pointsData, w1) ->
  pointsData !! "properties" = Some (JObj properties) ->
  properties !! "forecast" = Some (JStr forecastURL) ->
  makeNWSRequest P NewAPIClient forecastURL w1 = (Ok forecastData, w2) ->
  forecastData !! "properties" = Some (JObj forecastProps) ->
  forecastProps !! "periods" = Some (JArr periods) ->
  exists blocks : list string,
    (GetForecast P lat lon w).1 = (Join blocks dashes, None) /\
    Forall2 shows_period (maps_of periods) blocks.
Proof.
  intros H1 H2 H3 H4 H5 H6.
  rewrite (GetForecast_points_fetched _ _ _ _ _ H1), H2, H3, H4.
  unfold forecast_text. rewrite H5, H6.
  exists (map render_period (maps_of periods)). split; [reflexivity|].
  generalize (maps_of periods). intros records.
  induction records as [|period records IH]; constructor; [|exact IH].
  exists (FormatFloat_f 0 (number_or_zero period "temperature")).
  split; [apply FormatFloat_f_0_shows | reflexivity].
Qed.

End ForecastProofs.

(** ** [makeNWSRequest] *)

Section ClientProofs.
Context {W : Type} (P : Platform W).

Lemma makeNWSRequest_sends c url w :
  url_Parse P url = None ->
  makeNWSRequest P c url w =
  let '(resp, w') := client_Do P (client c) (nws_request url) w in
  (match resp with
   | Err err => Err err
   | Ok resp =>
       if negb (StatusCode resp =? StatusOK) then
         Err ("API request failed with status: " +:+
              FormatInt (StatusCode resp))
       else
         match Body resp with
         | Err err => Err err
         | Ok body => json_Unmarshal_map P body
         end
   end, w').
Proof.
  intros Hurl. unfold makeNWSRequest, http_NewRequest, bind. rewrite Hurl.
  fold (nws_request url).
  destruct (client_Do P (client c) (nws_request url) w) as [[resp|err] w'];
    [|reflexivity].
  destruct (negb (StatusCode resp =? StatusOK)); [reflexivity|].
  destruct (Body resp) as [body|err]; [|reflexivity].
  now destruct (json_Unmarshal_map P body).
Qed.

End ClientProofs.

(** ** [GeocodeCity] *)

Section GeocoderProofs.
Context {W : Type} (P : Platform W).

Lemma GeocodeCity_decoded city state w resp w' body results :
  url_Parse P "https://nominatim.openstreetmap.org/search" = None ->
  client_Do P {| Timeout := 10 |}
    (geocode_request P (geocode_query city state)) w = (Ok resp, w') ->
  StatusCode resp = StatusOK ->
  Body resp = Ok body ->
  json_Unmarshal_geo P body = Ok results ->
  GeocodeCity P city state w =
  (match results with
   | [] =>
       (Float64.zero, Float64.zero,
        Some ("no results found for location: " +:+ geocode_query city state))
   | first :: _ =>
       match strconv_ParseFloat P (Lat first) with
       | Err err => (Float64.zero, Float64.zero, Some err)
       | Ok lat =>
           match strconv_ParseFloat P (Lon first) with
           | Err err => (Float64.zero, Float64.zero, Some err)
           | Ok lon => (lat, lon, None)
           end
       end
   end, w').
Proof.
  intros Hurl Hdo Hcode Hbody Hjson.
  unfold GeocodeCity, http_NewRequest, bind. rewrite Hurl.
  assert (Hq : (if negb (String.eqb state "") then city +:+ ", " +:+ state
                else city) = geocode_query city state).
  { unfold geocode_query.
    destruct (String.eqb_spec state ""); destruct (decide (state = ""));
      simpl; congruence. }
  rewrite Hq. unfold Values_Add. cbn [app].
  fold (geocode_request P (geocode_query city state)).
  rewrite Hdo, Hcode, Hbody, Hjson. cbn [Z.eqb StatusOK Pos.eqb negb].
  destruct results as [|first rest]; [reflexivity|].
  destruct (strconv_ParseFloat P (Lat first)); [|reflexivity].
  now destruct (strconv_ParseFloat P (Lon first)).
Qed.

(** C7. After a successful geocoding answer (status 200, a body that
    decodes to a list), [GeocodeCity] returns an error exactly when the
    list is empty or when the latitude or the longitude string of the
    first result does not parse as a number. On an empty list the message
    contains "no results found" and the query. When both strings of the
    first result parse, the parsed pair is returned with a nil error,
    whatever the other results are. *)
Theorem GeocodeCity_outcomes city state w resp w' body results :
  url_Parse P "https://nominatim.openstreetmap.org/search" = None ->
  client_Do P {| Timeout := 10 |}
    (geocode_request P (geocode_query city state)) w = (Ok resp, w') ->
  StatusCode resp = StatusOK ->
  Body resp = Ok body ->
  json_Unmarshal_geo P body = Ok results ->
  ((GeocodeCity P city state w).1.2 <> None <->
   results = [] \/
   exists first rest,
     results = first :: rest /\
     (is_Err (strconv_ParseFloat P (Lat first)) \/
      is_Err (strconv_ParseFloat P (Lon first)))) /\
  (results = [] ->
   exists msg,
     (GeocodeCity P city state w).1.2 = Some msg /\
     Contains msg "no results found" /\
     Contains msg (geocode_query city state)) /\
  (forall first rest lat lon,
     results = first :: rest ->
     strconv_ParseFloat P (Lat first) = Ok lat ->
     strconv_ParseFloat P (Lon first) = Ok lon ->
     (GeocodeCity P city state w).1 = (lat, lon, None)).
Proof.
  intros Hurl Hdo Hcode Hbody Hjson.
  rewrite (GeocodeCity_decoded _ _ _ _ _ _ _ Hurl Hdo Hcode Hbody Hjson).
  split; [|split].
  - destruct results as [|first rest]; cbn [fst snd].
    + split; [now left | discriminate].
    + destruct (strconv_ParseFloat P (Lat first)) as [lat|e1] eqn:E1;
        [destruct (strconv_ParseFloat P (Lon first)) as [lon|e2] eqn:E2|];
        cbn [fst snd]; split; try discriminate.
      * now intros [].
      * intros [Hnil|(f & r & Heq & Herr)]; [discriminate|].
        injection Heq as <- <-. rewrite E1, E2 in Herr. now destruct Herr.
      * intros _. right. exists first, rest. rewrite E1, E2. simpl. tauto.
      * intros _. right. exists first, rest. rewrite E1. simpl. tauto.
  - intros ->. eexists. cbn [fst snd]. split; [reflexivity|]. split.
    + contains_at "" (" for location: " +:+ geocode_query city state).
    + apply Contains_suffix.
  - intros first rest lat lon -> Hlat Hlon. now rewrite Hlat, Hlon.
Qed.

End GeocoderProofs.

(** ** The [/forecast] handler on an upstream failure *)

Section HandlerProofs.
Context {W : Type} (P : Platform W).

Lemma GetForecast_points_status lat lon w resp w' :
  url_Parse P (points_url lat lon) = None ->
  client_Do P (client NewAPIClient) (nws_request (points_url lat lon)) w
  = (Ok resp, w') ->
  StatusCode resp <> StatusOK ->
  GetForecast P lat lon w =
  (("Unable to fetch forecast data for this location.",
    Some ("API request failed with status: " +:+ FormatInt (StatusCode resp))),
   w').
Proof.
  intros Hurl Hdo Hcode. unfold GetForecast, bind.
  fold (points_url lat lon).
  rewrite (makeNWSRequest_sends P _ _ _ Hurl), Hdo.
  destruct (Z.eqb_spec (StatusCode resp) StatusOK); [contradiction|].
  reflexivity.
Qed.

(** C2, amended. When the upstream answers the points call with HTTP 503,
    [GetForecast] returns the text "Unable to fetch forecast data for this
    location." together with the error "API request failed with status:
    503"; the [/forecast] handler answers with status 500 and writes the
    fixed prefix followed by the error message and a newline, so its body
    does not contain "Unable to fetch". *)
Theorem HandleForecast_points_503 r lat lon w resp w' :
  Method r = MethodGet ->
  Values_Get (URL_Query r) "lat" <> "" ->
  Values_Get (URL_Query r) "lon" <> "" ->
  strconv_ParseFloat P (Values_Get (URL_Query r) "lat") = Ok lat ->
  strconv_ParseFloat P (Values_Get (URL_Query r) "lon") = Ok lon ->
  url_Parse P (points_url lat lon) = None ->
  client_Do P (client NewAPIClient) (nws_request (points_url lat lon)) w
  = (Ok resp, w') ->
  StatusCode resp = 503 ->
  (GetForecast P lat lon w).1
  = ("Unable to fetch forecast data for this location.",
     Some "API request failed with status: 503") /\
  w_Code (HandleForecast P new_ResponseWriter r w).1
  = Some StatusInternalServerError /\
  w_Body (HandleForecast P new_ResponseWriter r w).1
  = "Error fetching forecast: API request failed with status: 503" +:+ LF /\
  ~ Contains (w_Body (HandleForecast P new_ResponseWriter r w).1)
      "Unable to fetch".
Proof.
  intros Hget Hlat Hlon Hplat Hplon Hurl Hdo Hcode.
  assert (Hne : StatusCode resp <> StatusOK) by (rewrite Hcode; discriminate).
  pose proof (GetForecast_points_status _ _ _ _ _ Hurl Hdo Hne) as HG.
  rewrite Hcode in HG.
  change (FormatInt 503) with "503" in HG.
  assert (HH : (HandleForecast P new_ResponseWriter r w).1
               = http_Error new_ResponseWriter
                   ("Error fetching forecast: " +:+
                    "API request failed with status: 503")
                   StatusInternalServerError).
  { unfold HandleForecast. rewrite Hget, String.eqb_refl.
    destruct (String.eqb_spec (Values_Get (URL_Query r) "lat") "");
      [contradiction|].
    destruct (String.eqb_spec (Values_Get (URL_Query r) "lon") "");
      [contradiction|].
    cbn [negb orb]. rewrite Hplat, Hplon.
    unfold bind. now rewrite HG. }
  rewrite HG, HH. repeat split.
  intros Hc. apply Contains_containsb in Hc. vm_compute in Hc. discriminate.
Qed.

End HandlerProofs.

(** ** The statements on the stubbed upstream *)

(** C3 on a points answer without [properties]. *)
Lemma GetForecast_soft_failures_witness :
  let P := Stub.forecast_platform Stub.body_points_bare in
  makeNWSRequest P NewAPIClient (points_url Stub.lat37 Stub.lon122) 0%nat
  = (Ok Stub.points_data_bare, 1%nat) /\
  (GetForecast P Stub.lat37 Stub.lon122 0%nat).1
  = ("Invalid response format from weather API.", None).
Proof.
  assert (H : makeNWSRequest (Stub.forecast_platform Stub.body_points_bare)
                NewAPIClient (points_url Stub.lat37 Stub.lon122) 0%nat
              = (Ok Stub.points_data_bare, 1%nat))
    by (vm_compute; reflexivity).
  split; [exact H|].
  apply (proj1 (GetForecast_soft_failures _ _ _ _ _ _ H)).
  intros m Hm. vm_compute in Hm. discriminate Hm.
Defined.

(** C5 on a forecast of two periods, the second with a name only. *)
Lemma GetForecast_periods_witness :
  let P := Stub.forecast_platform Stub.body_points in
  let properties : gmap string json :=
    {[ "forecast" := JStr Stub.forecast_url ]} in
  let forecastProps : gmap string json :=
    {[ "periods" := JArr [Stub.tonight; Stub.monday] ]} in
  (makeNWSRequest P NewAPIClient (points_url Stub.lat37 Stub.lon122) 0%nat
   = (Ok Stub.points_data, 1%nat) /\
   Stub.points_data !! "properties" = Some (JObj properties) /\
   properties !! "forecast" = Some (JStr Stub.forecast_url) /\
   makeNWSRequest P NewAPIClient Stub.forecast_url 1%nat
   = (Ok Stub.forecast_data, 2%nat) /\
   Stub.forecast_data !! "properties" = Some (JObj forecastProps) /\
   forecastProps !! "periods" = Some (JArr [Stub.tonight; Stub.monday])) /\
  exists blocks : list string,
    (GetForecast P Stub.lat37 Stub.lon122 0%nat).1
    = (Join blocks dashes, None) /\
    Forall2 shows_period (maps_of [Stub.tonight; Stub.monday]) blocks.
Proof.
  assert (H1 : makeNWSRequest (Stub.forecast_platform Stub.body_points)
                 NewAPIClient (points_url Stub.lat37 Stub.lon122) 0%nat
               = (Ok Stub.points_data, 1%nat)) by (vm_compute; reflexivity).
  assert (H2 : Stub.points_data !! "properties"
               = Some (JObj {[ "forecast" := JStr Stub.forecast_url ]}))
    by (vm_compute; reflexivity).
  assert (H3 : ({[ "forecast" := JStr Stub.forecast_url ]}
                : gmap string json) !! "forecast"
               = Some (JStr Stub.forecast_url)) by (vm_compute; reflexivity).
  assert (H4 : makeNWSRequest (Stub.forecast_platform Stub.body_points)
                 NewAPIClient Stub.forecast_url 1%nat
               = (Ok Stub.forecast_data, 2%nat)) by (vm_compute; reflexivity).
  assert (H5 : Stub.forecast_data !! "properties"
               = Some (JObj {[ "periods" :=
                                 JArr [Stub.tonight; Stub.monday] ]}))
    by (vm_compute; reflexivity).
  assert (H6 : ({[ "periods" := JArr [Stub.tonight; Stub.monday] ]}
                : gmap string json) !! "periods"
               = Some (JArr [Stub.tonight; Stub.monday]))
    by (vm_compute; reflexivity).
  split; [now repeat split|].
  exact (GetForecast_periods _ _ _ _ _ _ _ _ _ _ _ _
           H1 H2 H3 H4 H5 H6).
Defined.

(** C7 on a geocoder answer with two candidates. *)
Lemma GeocodeCity_outcomes_witness :
  let P := Stub.geocoder_platform Stub.body_two_places in
  let resp := {| StatusCode := 200; Body := Ok Stub.body_two_places |} in
  let first := {| Lat := "47"; Lon := "-122" |} in
  let rest := [ {| Lat := "10"; Lon := "20" |} ] in
  (url_Parse P "https://nominatim.openstreetmap.org/search" = None /\
   client_Do P {| Timeout := 10 |}
     (geocode_request P (geocode_query "Seattle" "WA")) 0%nat
   = (Ok resp, 1%nat) /\
   StatusCode resp = StatusOK /\
   Body resp = Ok Stub.body_two_places /\
   json_Unmarshal_geo P Stub.body_two_places = Ok (first :: rest)) /\
  (GeocodeCity P "Seattle" "WA" 0%nat).1
  = (S754_finite false 47 0, S754_finite true 122 0, None).
Proof.
  assert (H1 : url_Parse (Stub.geocoder_platform Stub.body_two_places)
                 "https://nominatim.openstreetmap.org/search" = None)
    by reflexivity.
  assert (H2 : client_Do (Stub.geocoder_platform Stub.body_two_places)
                 {| Timeout := 10 |}
                 (geocode_request (Stub.geocoder_platform Stub.body_two_places)
                    (geocode_query "Seattle" "WA")) 0%nat
               = (Ok {| StatusCode := 200; Body := Ok Stub.body_two_places |},
                  1%nat)) by reflexivity.
  assert (H3 : StatusCode {| StatusCode := 200;
                             Body := Ok Stub.body_two_places |} = StatusOK)
    by reflexivity.
  assert (H4 : Body {| StatusCode := 200; Body := Ok Stub.body_two_places |}
               = Ok Stub.body_two_places) by reflexivity.
  assert (H5 : json_Unmarshal_geo (Stub.geocoder_platform Stub.body_two_places)
                 Stub.body_two_places
               = Ok [ {| Lat := "47"; Lon := "-122" |};
                      {| Lat := "10"; Lon := "20" |} ])
    by (vm_compute; reflexivity).
  split; [now repeat split|].
  apply (proj2 (proj2 (GeocodeCity_outcomes _ "Seattle" "WA" _ _ _ _ _
                         H1 H2 H3 H4 H5))
           {| Lat := "47"; Lon := "-122" |} [ {| Lat := "10"; Lon := "20" |} ]);
    reflexivity.
Defined.

(** C2, amended, on an upstream that answers 503 to every call. *)
Lemma HandleForecast_points_503_witness :
  let P := Stub.failing_platform 503 in
  let r := {| Method := "GET";
              URL_Query := [("lat", "37"); ("lon", "-122")] |} in
  let resp := {| StatusCode := 503; Body := Ok "" |} in
  (Method r = MethodGet /\
   Values_Get (URL_Query r) "lat" <> "" /\
   Values_Get (URL_Query r) "lon" <> "" /\
   strconv_ParseFloat P (Values_Get (URL_Query r) "lat") = Ok Stub.lat37 /\
   strconv_ParseFloat P (Values_Get (URL_Query r) "lon") = Ok Stub.lon122 /\
   url_Parse P (points_url Stub.lat37 Stub.lon122) = None /\
   client_Do P (client NewAPIClient)
     (nws_request (points_url Stub.lat37 Stub.lon122)) 0%nat
   = (Ok resp, 1%nat) /\
   StatusCode resp = 503) /\
  w_Code (HandleForecast P new_ResponseWriter r 0%nat).1
  = Some StatusInternalServerError /\
  w_Body (HandleForecast P new_ResponseWriter r 0%nat).1
  = "Error fetching forecast: API request failed with status: 503" +:+ LF.
Proof.
  set (P := Stub.failing_platform 503).
  set (r := {| Method := "GET";
               URL_Query := [("lat", "37"); ("lon", "-122")] |}).
  set (resp := {| StatusCode := 503; Body := Ok "" |}).
  assert (H1 : Method r = MethodGet) by reflexivity.
  assert (H2 : Values_Get (URL_Query r) "lat" <> "") by discriminate.
  assert (H3 : Values_Get (URL_Query r) "lon" <> "") by discriminate.
  assert (H4 : strconv_ParseFloat P (Values_Get (URL_Query r) "lat")
               = Ok Stub.lat37) by reflexivity.
  assert (H5 : strconv_ParseFloat P (Values_Get (URL_Query r) "lon")
               = Ok Stub.lon122) by reflexivity.
  assert (H6 : url_Parse P (points_url Stub.lat37 Stub.lon122) = None)
    by reflexivity.
  assert (H7 : client_Do P (client NewAPIClient)
                 (nws_request (points_url Stub.lat37 Stub.lon122)) 0%nat
               = (Ok resp, 1%nat)) by reflexivity.
  assert (H8 : StatusCode resp = 503) by reflexivity.
  split; [now repeat split|].
  pose proof (HandleForecast_points_503 P r _ _ _ _ _
                H1 H2 H3 H4 H5 H6 H7 H8) as (_ & Hc & Hb & _).
  split; [exact Hc | exact Hb].
Defined.

(** C2 as stated fails: with the points call answered by HTTP 503, the
    handler's answer is not a 500 whose body contains "Unable to fetch". *)
Lemma HandleForecast_503_body_lacks_text :
  let P := Stub.failing_platform 503 in
  let r := {| Method := "GET";
              URL_Query := [("lat", "37"); ("lon", "-122")] |} in
  client_Do P (client NewAPIClient)
    (nws_request (points_url Stub.lat37 Stub.lon122)) 0%nat
  = (Ok {| StatusCode := 503; Body := Ok "" |}, 1%nat) /\
  w_Code (HandleForecast P new_ResponseWriter r 0%nat).1 = Some 500 /\
  ~ (w_Code (HandleForecast P new_ResponseWriter r 0%nat).1 = Some 500 /\
     Contains (w_Body (HandleForecast P new_ResponseWriter r 0%nat).1)
       "Unable to fetch").
Proof.
  split; [reflexivity|]. split; [vm_compute; reflexivity|].
  intros [_ Hc]. apply Contains_containsb in Hc.
  vm_compute in Hc. discriminate Hc.
Qed.

(** * Further properties of the package *)

(** ** The upstream client *)

Section ClientMore.
Context {W : Type} (P : Platform W).

(** [makeNWSRequest] succeeds exactly when the URL parses, the single
    call of [client.Do] answers with status 200, the body is read and it
    decodes; the network is then in the state that call left. *)
Theorem makeNWSRequest_success_iff c url w data w' :
  makeNWSRequest P c url w = (Ok data, w') <->
  url_Parse P url = None /\
  exists resp body,
    client_Do P (client c) (nws_request url) w = (Ok resp, w') /\
    StatusCode resp = StatusOK /\
    Body resp = Ok body /\
    json_Unmarshal_map P body = Ok data.
Proof.
  destruct (url_Parse P url) as [e|] eqn:Hurl.
  - unfold makeNWSRequest, http_NewRequest. rewrite Hurl.
    split; [discriminate | now intros [? _]].
  - rewrite (makeNWSRequest_sends P c url w Hurl).
    destruct (client_Do P (client c) (nws_request url) w)
      as [[resp|err] w1].
    2:{ split; [discriminate|]. intros (_ & resp & body & H & _).
        discriminate H. }
    destruct (Z.eqb_spec (StatusCode resp) StatusOK) as [Hc|Hc];
      cbn [negb].
    2:{ split; [discriminate|]. intros (_ & r & body & H & Hs & _).
        injection H as <- _. contradiction. }
    destruct (Body resp) as [body|err] eqn:Hb.
    2:{ split; [discriminate|]. intros (_ & r & body & H & _ & Hb' & _).
        injection H as <- _. congruence. }
    split.
    + intros H. injection H as Hj <-. split; [reflexivity|].
      exists resp, body. now repeat split.
    + intros (_ & r & b & H & _ & Hb' & Hj). injection H as <- <-.
      rewrite Hb in Hb'. injection Hb' as <-. now rewrite Hj.
Qed.

(** A status other than 200 makes [makeNWSRequest] fail with the message
    "API request failed with status: " followed by the code, whatever the
    body holds: the body is neither read nor decoded. *)
Theorem makeNWSRequest_bad_status c url w resp w' :
  url_Parse P url = None ->
  client_Do P (client c) (nws_request url) w = (Ok resp, w') ->
  StatusCode resp <> StatusOK ->
  makeNWSRequest P c url w
  = (Err ("API request failed with status: " +:+ FormatInt (StatusCode resp)),
     w').
Proof.
  intros Hurl Hdo Hcode. rewrite (makeNWSRequest_sends P c url w Hurl), Hdo.
  now destruct (Z.eqb_spec (StatusCode resp) StatusOK).
Qed.

(** [makeNWSRequest] calls [client.Do] at most once: there is no retry. *)
Lemma makeNWSRequest_calls c url w :
  exists n, (n <= 1)%nat /\ calls P n w (makeNWSRequest P c url w).2.
Proof.
  unfold makeNWSRequest, bind.
  destruct (http_NewRequest P "GET" url) as [req|err].
  2:{ exists 0%nat. split; [lia | constructor]. }
  match goal with
  | |- context [client_Do P ?c ?r w] =>
      pose proof (calls_more P 0 w w c r (calls_none P w)) as Hc;
      destruct (client_Do P c r w) as [[resp|err] w1]
  end; cbn [snd] in Hc.
  2:{ exists 1%nat. split; [lia | exact Hc]. }
  exists 1%nat. split; [lia|].
  destruct (negb (StatusCode resp =? StatusOK)); [exact Hc|].
  destruct (Body resp) as [body|err]; [|exact Hc].
  now destruct (json_Unmarshal_map P body).
Qed.

End ClientMore.

(** A 404 answer on the stubbed upstream. *)
Lemma makeNWSRequest_bad_status_witness :
  let P := Stub.failing_platform 404 in
  let url := NWSAPIBase +:+ "/alerts/active/area/ZZ" in
  (url_Parse P url = None /\
   client_Do P (client NewAPIClient) (nws_request url) 0%nat
   = (Ok {| StatusCode := 404; Body := Ok "" |}, 1%nat) /\
   StatusCode {| StatusCode := 404; Body := Ok "" |} <> StatusOK) /\
  makeNWSRequest P NewAPIClient url 0%nat
  = (Err "API request failed with status: 404", 1%nat).
Proof.
  set (P := Stub.failing_platform 404).
  set (url := NWSAPIBase +:+ "/alerts/active/area/ZZ").
  assert (H1 : url_Parse P url = None) by reflexivity.
  assert (H2 : client_Do P (client NewAPIClient) (nws_request url) 0%nat
               = (Ok {| StatusCode := 404; Body := Ok "" |}, 1%nat))
    by reflexivity.
  assert (H3 : StatusCode {| StatusCode := 404; Body := Ok "" |} <> StatusOK)
    by discriminate.
  split; [now repeat split|].
  exact (makeNWSRequest_bad_status P NewAPIClient url 0%nat _ _ H1 H2 H3).
Defined.

(** ** The alerts pipeline *)

Section AlertsMore.
Context {W : Type} (P : Platform W).

(** [GetAlerts] returns an error exactly when the fetch fails; the error
    is the fetch's own and the text is then "Unable to fetch alerts.".
    No shape of a decoded answer produces an error. *)
Theorem GetAlerts_error_iff state w text e :
  (GetAlerts P state w).1 = (text, Some e) <->
  (makeNWSRequest P NewAPIClient
     (NWSAPIBase +:+ "/alerts/active/area/" +:+ state) w).1 = Err e /\
  text = "Unable to fetch alerts.".
Proof.
  unfold GetAlerts, bind.
  destruct (makeNWSRequest P NewAPIClient
              (NWSAPIBase +:+ "/alerts/active/area/" +:+ state) w)
    as [[data|err] w1]; cbn [fst].
  - split; [|intros [H _]; discriminate H].
    destruct (assert_slice (index data "features")) as [features [|]];
      cbn [negb]; [|discriminate].
    destruct (length features =? 0)%nat; discriminate.
  - split.
    + intros H. injection H as <- <-. now split.
    + intros [H ->]. now injection H as ->.
Qed.

(** A state code that makes the URL unparsable is answered without any
    call of the upstream: [GetAlerts] returns the parse error and leaves
    the network as it was, and the handler turns it into a 500. *)
Theorem GetAlerts_invalid_url r w e :
  Method r = MethodGet ->
  Values_Get (URL_Query r) "state" <> "" ->
  url_Parse P (NWSAPIBase +:+ "/alerts/active/area/" +:+
               Values_Get (URL_Query r) "state") = Some e ->
  GetAlerts P (Values_Get (URL_Query r) "state") w
  = (("Unable to fetch alerts.", Some e), w) /\
  HandleAlerts P new_ResponseWriter r w
  = (http_Error new_ResponseWriter ("Error fetching alerts: " +:+ e)
       StatusInternalServerError, w).
Proof.
  intros Hget Hstate Hurl.
  assert (HG : GetAlerts P (Values_Get (URL_Query r) "state") w
               = (("Unable to fetch alerts.", Some e), w)).
  { unfold GetAlerts, bind, makeNWSRequest, http_NewRequest.
    now rewrite Hurl. }
  split; [exact HG|].
  unfold HandleAlerts. rewrite Hget, String.eqb_refl.
  destruct (String.eqb_spec (Values_Get (URL_Query r) "state") "");
    [contradiction|].
  cbn [negb]. unfold bind. now rewrite HG.
Qed.

(** When every element of a non-empty [features] list is a map, the text
    is made of exactly one block per element, in list order. *)
Theorem GetAlerts_all_maps state w data w' features :
  makeNWSRequest P NewAPIClient
    (NWSAPIBase +:+ "/alerts/active/area/" +:+ state) w = (Ok data, w') ->
  data !! "features" = Some (JArr features) ->
  features <> [] ->
  Forall is_map features ->
  (GetAlerts P state w).1
  = (Join (map (fun f => formatAlert (assert_map f).1) features) separator,
     None) /\
  one_block_per_element features (GetAlerts P state w).1.1.
Proof.
  intros H Hf Hne Hall. rewrite (GetAlerts_fetched _ _ _ _ _ H), Hf.
  assert (Hmaps : map formatAlert (maps_of features)
                  = map (fun f => formatAlert (assert_map f).1) features).
  { clear -Hall. induction Hall as [|f l [m ->] _ IH]; [reflexivity|].
    cbn [maps_of omap map assert_map fst]. unfold maps_of in IH.
    cbn. f_equal. exact IH. }
  destruct features as [|f features]; [now destruct Hne|].
  rewrite Hmaps. split; [reflexivity|]. cbn [fst].
  exists (map (fun f => formatAlert (assert_map f).1) (f :: features)).
  split; [apply length_map|]. split; [|reflexivity].
  apply Forall_forall. intros b Hb. apply list_elem_of_In in Hb.
  apply in_map_iff in Hb as (x & <- & _). now eexists.
Qed.

End AlertsMore.

(** A state code holding a newline, on the platform that refuses it. *)
Lemma GetAlerts_invalid_url_witness :
  let P := Fixtures.strict_alerts_platform in
  let r := Fixtures.get [("state", "C" +:+ LF +:+ "A")] in
  (Method r = MethodGet /\
   Values_Get (URL_Query r) "state" <> "" /\
   url_Parse P (NWSAPIBase +:+ "/alerts/active/area/" +:+
                Values_Get (URL_Query r) "state")
   = Some "net/url: invalid control character in URL") /\
  HandleAlerts P new_ResponseWriter r 0%nat
  = (http_Error new_ResponseWriter
       ("Error fetching alerts: " +:+
        "net/url: invalid control character in URL")
       StatusInternalServerError, 0%nat).
Proof.
  set (P := Fixtures.strict_alerts_platform).
  set (r := Fixtures.get [("state", "C" +:+ LF +:+ "A")]).
  assert (H1 : Method r = MethodGet) by reflexivity.
  assert (H2 : Values_Get (URL_Query r) "state" <> "") by discriminate.
  assert (H3 : url_Parse P (NWSAPIBase +:+ "/alerts/active/area/" +:+
                            Values_Get (URL_Query r) "state")
               = Some "net/url: invalid control character in URL")
    by (vm_compute; reflexivity).
  split; [now repeat split|].
  exact (proj2 (GetAlerts_invalid_url P r 0%nat _ H1 H2 H3)).
Defined.

(** Two alerts, both maps: two blocks. *)
Lemma GetAlerts_all_maps_witness :
  let P := Stub.alerts_platform Stub.body_two_alerts in
  let features := [Stub.full_alert; Stub.bare_alert] in
  (makeNWSRequest P NewAPIClient
     (NWSAPIBase +:+ "/alerts/active/area/" +:+ "CA") 0%nat
   = (Ok {[ "features" := JArr features ]}, 1%nat) /\
   ({[ "features" := JArr features ]} : gmap string json) !! "features"
   = Some (JArr features) /\
   features <> [] /\
   Forall is_map features) /\
  one_block_per_element features (GetAlerts P "CA" 0%nat).1.1.
Proof.
  set (P := Stub.alerts_platform Stub.body_two_alerts).
  set (features := [Stub.full_alert; Stub.bare_alert]).
  assert (H1 : makeNWSRequest P NewAPIClient
                 (NWSAPIBase +:+ "/alerts/active/area/" +:+ "CA") 0%nat
               = (Ok {[ "features" := JArr features ]}, 1%nat))
    by (vm_compute; reflexivity).
  assert (H2 : ({[ "features" := JArr features ]} : gmap string json)
               !! "features" = Some (JArr features))
    by (vm_compute; reflexivity).
  assert (H3 : features <> []) by discriminate.
  assert (H4 : Forall is_map features).
  { repeat constructor; eexists; reflexivity. }
  split; [now repeat split|].
  exact (proj2 (GetAlerts_all_maps P "CA" 0%nat _ 1%nat features
                  H1 H2 H3 H4)).
Defined.

(** ** More on [formatAlert] *)

(** A feature without a [properties] map is not skipped and does not
    fail: it renders as the fixed text "Error: Invalid alert format", and
    in [GetAlerts] that text takes the place of its block. *)
Theorem formatAlert_without_properties (feature : gmap string json) :
  (forall m, feature !! "properties" <> Some (JObj m)) ->
  formatAlert feature = "Error: Invalid alert format" /\
  forall before after,
    fold_left alerts_step (before ++ JObj feature :: after)%list []
    = (map formatAlert (maps_of before) ++
       "Error: Invalid alert format" :: map formatAlert (maps_of after))%list.
Proof.
  intros Hno.
  assert (Hf : formatAlert feature = "Error: Invalid alert format").
  { unfold formatAlert, index.
    destruct (feature !! "properties") as [[| | | | |m]|]; try reflexivity.
    now destruct (Hno m). }
  split; [exact Hf|]. intros before after.
  assert (Hm : maps_of (before ++ JObj feature :: after)
               = (maps_of before ++ feature :: maps_of after)%list)
    by (unfold maps_of; now rewrite omap_app).
  rewrite alerts_loop, Hm, map_app. cbn [app map]. now rewrite Hf.
Qed.

(** A feature whose [properties] is a string. *)
Lemma formatAlert_without_properties_witness :
  let feature : gmap string json := {[ "properties" := JStr "none" ]} in
  (forall m, feature !! "properties" <> Some (JObj m)) /\
  formatAlert feature = "Error: Invalid alert format".
Proof.
  assert (H : forall m, ({[ "properties" := JStr "none" ]}
                         : gmap string json) !! "properties"
                        <> Some (JObj m)).
  { intros m Hm. vm_compute in Hm. discriminate Hm. }
  split; [exact H|].
  exact (proj1 (formatAlert_without_properties _ H)).
Defined.

(** [formatAlert] reads the five alert fields of [properties] and nothing
    else: two features whose [properties] maps agree on these five keys
    render the same block, whatever their other keys and whatever the
    feature holds beside [properties]. *)
Theorem formatAlert_reads_five_fields
    (feature feature' props props' : gmap string json) :
  feature !! "properties" = Some (JObj props) ->
  feature' !! "properties" = Some (JObj props') ->
  same_alert_fields props props' ->
  formatAlert feature = formatAlert feature'.
Proof.
  intros H H' Hsame.
  rewrite (formatAlert_fields _ _ H), (formatAlert_fields _ _ H').
  assert (Hk : forall key label placeholder,
             (key, label, placeholder) ∈ alert_fields ->
             field_or props key placeholder = field_or props' key placeholder).
  { intros key label placeholder Hin. unfold field_or.
    now rewrite (Hsame key label placeholder Hin). }
  unfold alert_fields in Hk.
  rewrite (Hk "event" "Event: " "Unknown") by (repeat constructor).
  rewrite (Hk "areaDesc" "Area: " "Unknown") by (repeat constructor).
  rewrite (Hk "severity" "Severity: " "Unknown") by (repeat constructor).
  rewrite (Hk "description" "Description: " "No description available")
    by (repeat constructor).
  rewrite (Hk "instruction" "Instructions: "
             "No specific instructions provided") by (repeat constructor).
  reflexivity.
Qed.

(** The same alert with and without a headline and an id. *)
Lemma formatAlert_reads_five_fields_witness :
  let props : gmap string json := <["event" := JStr "Frost Advisory"]> ∅ in
  let props' : gmap string json :=
    <["headline" := JStr "Frost tonight"]> props in
  let feature : gmap string json := {[ "properties" := JObj props ]} in
  let feature' : gmap string json :=
    <["id" := JStr "urn:1"]> {[ "properties" := JObj props' ]} in
  (feature !! "properties" = Some (JObj props) /\
   feature' !! "properties" = Some (JObj props') /\
   same_alert_fields props props') /\
  formatAlert feature = formatAlert feature'.
Proof.
  set (props := (<["event" := JStr "Frost Advisory"]> ∅ : gmap string json)).
  set (props' := (<["headline" := JStr "Frost tonight"]> props
                  : gmap string json)).
  set (feature := ({[ "properties" := JObj props ]} : gmap string json)).
  set (feature' := (<["id" := JStr "urn:1"]> {[ "properties" := JObj props' ]}
                    : gmap string json)).
  assert (H1 : feature !! "properties" = Some (JObj props))
    by (vm_compute; reflexivity).
  assert (H2 : feature' !! "properties" = Some (JObj props'))
    by (vm_compute; reflexivity).
  assert (H3 : same_alert_fields props props').
  { intros key label placeholder Hin. unfold alert_fields in Hin.
    repeat (apply elem_of_cons in Hin as [Hin|Hin]);
      [injection Hin as -> -> -> .. | now apply elem_of_nil in Hin];
      vm_compute; reflexivity. }
  split; [now repeat split|].
  exact (formatAlert_reads_five_fields feature feature' props props'
           H1 H2 H3).
Defined.

(** ** The forecast pipeline *)

Lemma round_half_even_exact (k den : Z) :
  0 < den -> round_half_even (k * den) den = k.
Proof.
  intros Hden. unfold round_half_even.
  rewrite Z.div_mul, Z.mod_mul by lia.
  now destruct (Z.ltb_spec (2 * 0) den); [|lia].
Qed.

Lemma FormatFloat_f_0_exact (s : bool) (m : positive) (e k : Z) :
  integer_valued m e k ->
  FormatFloat_f 0 (S754_finite s m e) = sign_prefix s +:+ digits (Z.to_N k).
Proof.
  unfold integer_valued. intros Hk.
  cbn [FormatFloat_f]. unfold fixed, scaled, magnitude. cbn [Z.of_nat].
  rewrite Z.pow_0_r, Z.div_1_r, append_empty_r.
  destruct (Z.leb_spec 0 e) as [He|He].
  - rewrite (Z.max_l 0 (- e)), (Z.max_r 0 e), Z.pow_0_r in Hk by lia.
    rewrite Z.mul_1_r, Hk. now rewrite round_half_even_exact by lia.
  - rewrite (Z.max_r 0 (- e)), (Z.max_l 0 e), Z.pow_0_r, Z.mul_1_r in Hk
      by lia.
    rewrite Z.mul_1_r, Hk.
    now rewrite round_half_even_exact by (apply Z.pow_pos_nonneg; lia).
Qed.

(** A period whose temperature is a float of integer value [k] shows
    exactly the decimal digits of [k] before the degree sign, with a minus
    sign when the float is negative: no fraction, no exponent. *)
Theorem forecasts_step_integer_temperature
    (period : gmap string json) (s : bool) (m : positive) (e k : Z)
    (forecasts : list string) :
  period !! "temperature" = Some (JNum (S754_finite s m e)) ->
  integer_valued m e k ->
  forecasts_step forecasts (JObj period)
  = (forecasts ++
     [ LF +:+ string_or_empty period "name" +:+ ":" +:+ LF +:+
       "Temperature: " +:+ (sign_prefix s +:+ digits (Z.to_N k)) +:+ degree +:+
       string_or_empty period "temperatureUnit" +:+ LF +:+
       "Wind: " +:+ string_or_empty period "windSpeed" +:+ " " +:+
       string_or_empty period "windDirection" +:+ LF +:+
       "Forecast: " +:+ string_or_empty period "detailedForecast" +:+ LF ])%list.
Proof.
  intros Ht Hk. cbn [forecasts_step assert_map negb].
  rewrite !read_string, read_number. unfold number_or_zero. rewrite Ht.
  unfold forecast_template. now rewrite (FormatFloat_f_0_exact s m e k Hk).
Qed.

(** The double 72.0 (mantissa 72 * 2^46, exponent -46) prints as 72. *)
Lemma forecasts_step_integer_temperature_witness :
  let period : gmap string json :=
    <["temperature" := JNum (S754_finite false 5066549580791808 (-46))]>
      (<["temperatureUnit" := JStr "F"]> ∅) in
  (period !! "temperature"
   = Some (JNum (S754_finite false 5066549580791808 (-46))) /\
   integer_valued 5066549580791808 (-46) 72) /\
  forecasts_step [] (JObj period)
  = [ LF +:+ ":" +:+ LF +:+ "Temperature: 72" +:+ degree +:+ "F" +:+ LF +:+
      "Wind:  " +:+ LF +:+ "Forecast: " +:+ LF ].
Proof.
  set (period := (<["temperature" :=
                      JNum (S754_finite false 5066549580791808 (-46))]>
                    (<["temperatureUnit" := JStr "F"]> ∅)
                  : gmap string json)).
  assert (H1 : period !! "temperature"
               = Some (JNum (S754_finite false 5066549580791808 (-46))))
    by (vm_compute; reflexivity).
  assert (H2 : integer_valued 5066549580791808 (-46) 72)
    by (vm_compute; reflexivity).
  split; [now split|].
  rewrite (forecasts_step_integer_temperature period false _ _ 72 [] H1 H2).
  vm_compute. reflexivity.
Defined.

Section ForecastMore.
Context {W : Type} (P : Platform W).

Lemma GetForecast_points_failed lat lon w err w1 :
  makeNWSRequest P NewAPIClient (points_url lat lon) w = (Err err, w1) ->
  GetForecast P lat lon w
  = (("Unable to fetch forecast data for this location.", Some err), w1).
Proof.
  intros H. unfold GetForecast, bind. fold (points_url lat lon).
  now rewrite H.
Qed.

(** [GetForecast] returns an error exactly when one of its two fetches
    fails: the points fetch, with the text "Unable to fetch forecast data
    for this location.", or the fetch of the forecast URL found in the
    points answer, with the text "Unable to fetch detailed forecast.".
    The error is the failed fetch's own. *)
Theorem GetForecast_error_iff lat lon w text e :
  (GetForecast P lat lon w).1 = (text, Some e) <->
  ((makeNWSRequest P NewAPIClient (points_url lat lon) w).1 = Err e /\
   text = "Unable to fetch forecast data for this location.") \/
  (exists pointsData w1 properties forecastURL,
     makeNWSRequest P NewAPIClient (points_url lat lon) w
     = (Ok pointsData, w1) /\
     pointsData !! "properties" = Some (JObj properties) /\
     properties !! "forecast" = Some (JStr forecastURL) /\
     (makeNWSRequest P NewAPIClient forecastURL w1).1 = Err e /\
     text = "Unable to fetch detailed forecast.").
Proof.
  destruct (makeNWSRequest P NewAPIClient (points_url lat lon) w)
    as [[pointsData|err] w1] eqn:H1.
  - rewrite (GetForecast_points_fetched P _ _ _ _ _ H1). cbn [fst].
    split.
    + intros H. right.
      destruct (pointsData !! "properties") as [[| | | | |properties]|]
        eqn:Hp; try discriminate H.
      destruct (properties !! "forecast") as [[| | |forecastURL| |]|] eqn:Hu;
        try discriminate H.
      destruct (makeNWSRequest P NewAPIClient forecastURL w1)
        as [[forecastData|err] w2] eqn:H2; cbn [fst] in H.
      * unfold forecast_text in H.
        destruct (forecastData !! "properties") as [[| | | | |fp]|];
          try discriminate H.
        destruct (fp !! "periods") as [[| | | |l|]|]; discriminate H.
      * injection H as <- <-.
        exists pointsData, w1, properties, forecastURL.
        rewrite H2. repeat split; assumption || reflexivity.
    + intros [[H _]|(pd & w1' & properties & forecastURL & Heq & Hp & Hu
                     & Herr & ->)]; [discriminate H|].
      injection Heq as <- <-. rewrite Hp, Hu.
      destruct (makeNWSRequest P NewAPIClient forecastURL w1)
        as [[forecastData|err] w2]; cbn [fst] in Herr |- *;
        [discriminate Herr | now injection Herr as ->].
  - rewrite (GetForecast_points_failed _ _ _ _ _ H1). cbn [fst]. split.
    + intros H. injection H as <- <-. now left.
    + intros [[H ->]|(pd & w1' & _ & _ & Heq & _)];
        [now injection H as -> | discriminate Heq].
Qed.

(** A well-shaped forecast whose list of periods is empty, or holds no
    record, gives the empty text with a nil error: unlike the alerts
    pipeline, [GetForecast] has no fixed text for an empty list. *)
Theorem GetForecast_no_period_records lat lon w pointsData w1 properties
    forecastURL forecastData w2 forecastProps periods :
  makeNWSRequest P NewAPIClient (points_url lat lon) w = (Ok pointsData, w1) ->
  pointsData !! "properties" = Some (JObj properties) ->
  properties !! "forecast" = Some (JStr forecastURL) ->
  makeNWSRequest P NewAPIClient forecastURL w1 = (Ok forecastData, w2) ->
  forecastData !! "properties" = Some (JObj forecastProps) ->
  forecastProps !! "periods" = Some (JArr periods) ->
  Forall (fun p => ~ is_map p) periods ->
  GetForecast P lat lon w = (("", None), w2).
Proof.
  intros H1 H2 H3 H4 H5 H6 Hall.
  rewrite (GetForecast_points_fetched P _ _ _ _ _ H1), H2, H3, H4.
  unfold forecast_text. rewrite H5, H6.
  now rewrite (maps_of_no_map _ Hall).
Qed.

(** After the points answer, [GetForecast] sends a second request only
    when the answer holds a forecast URL, and sends it to that URL as it
    stands; with an answer of another shape the network is left in the
    state of the first request. *)
Theorem GetForecast_second_request lat lon w pointsData w1 :
  makeNWSRequest P NewAPIClient (points_url lat lon) w = (Ok pointsData, w1) ->
  ((forall properties u,
      pointsData !! "properties" = Some (JObj properties) ->
      properties !! "forecast" <> Some (JStr u)) ->
   (GetForecast P lat lon w).2 = w1) /\
  (forall properties forecastURL,
     pointsData !! "properties" = Some (JObj properties) ->
     properties !! "forecast" = Some (JStr forecastURL) ->
     (GetForecast P lat lon w).2
     = (makeNWSRequest P NewAPIClient forecastURL w1).2).
Proof.
  intros H1. rewrite (GetForecast_points_fetched P _ _ _ _ _ H1). split.
  - intros Hno.
    destruct (pointsData !! "properties") as [[| | | | |properties]|];
      try reflexivity.
    destruct (properties !! "forecast") as [[| | |u| |]|] eqn:Hu;
      try reflexivity.
    now destruct (Hno properties u).
  - intros properties forecastURL -> ->.
    now destruct (makeNWSRequest P NewAPIClient forecastURL w1)
      as [[forecastData|err] w2].
Qed.

End ForecastMore.

(** An upstream whose forecast has no period. *)
Lemma GetForecast_no_period_records_witness :
  let P := Fixtures.empty_forecast_platform in
  let properties : gmap string json :=
    {[ "forecast" := JStr Stub.forecast_url ]} in
  let forecastProps : gmap string json := {[ "periods" := JArr [] ]} in
  (makeNWSRequest P NewAPIClient (points_url Stub.lat37 Stub.lon122) 0%nat
   = (Ok Stub.points_data, 1%nat) /\
   Stub.points_data !! "properties" = Some (JObj properties) /\
   properties !! "forecast" = Some (JStr Stub.forecast_url) /\
   makeNWSRequest P NewAPIClient Stub.forecast_url 1%nat
   = (Ok Fixtures.forecast_data_empty, 2%nat) /\
   Fixtures.forecast_data_empty !! "properties" = Some (JObj forecastProps) /\
   forecastProps !! "periods" = Some (JArr []) /\
   Forall (fun p => ~ is_map p) []) /\
  GetForecast P Stub.lat37 Stub.lon122 0%nat = (("", None), 2%nat).
Proof.
  set (P := Fixtures.empty_forecast_platform).
  assert (H1 : makeNWSRequest P NewAPIClient
                 (points_url Stub.lat37 Stub.lon122) 0%nat
               = (Ok Stub.points_data, 1%nat)) by (vm_compute; reflexivity).
  assert (H2 : Stub.points_data !! "properties"
               = Some (JObj {[ "forecast" := JStr Stub.forecast_url ]}))
    by (vm_compute; reflexivity).
  assert (H3 : ({[ "forecast" := JStr Stub.forecast_url ]}
                : gmap string json) !! "forecast"
               = Some (JStr Stub.forecast_url)) by (vm_compute; reflexivity).
  assert (H4 : makeNWSRequest P NewAPIClient Stub.forecast_url 1%nat
               = (Ok Fixtures.forecast_data_empty, 2%nat))
    by (vm_compute; reflexivity).
  assert (H5 : Fixtures.forecast_data_empty !! "properties"
               = Some (JObj {[ "periods" := JArr [] ]}))
    by (vm_compute; reflexivity).
  assert (H6 : ({[ "periods" := JArr [] ]} : gmap string json) !! "periods"
               = Some (JArr [])) by (vm_compute; reflexivity).
  assert (H7 : Forall (fun p : json => ~ is_map p) []) by constructor.
  split; [now repeat split|].
  exact (GetForecast_no_period_records P _ _ _ _ _ _ _ _ _ _ _
           H1 H2 H3 H4 H5 H6 H7).
Defined.

(** A points answer without [properties]: one request, no second one. *)
Lemma GetForecast_second_request_witness :
  let P := Stub.forecast_platform Stub.body_points_bare in
  makeNWSRequest P NewAPIClient (points_url Stub.lat37 Stub.lon122) 0%nat
  = (Ok Stub.points_data_bare, 1%nat) /\
  (GetForecast P Stub.lat37 Stub.lon122 0%nat).2 = 1%nat.
Proof.
  set (P := Stub.forecast_platform Stub.body_points_bare).
  assert (H1 : makeNWSRequest P NewAPIClient
                 (points_url Stub.lat37 Stub.lon122) 0%nat
               = (Ok Stub.points_data_bare, 1%nat))
    by (vm_compute; reflexivity).
  split; [exact H1|].
  apply (proj1 (GetForecast_second_request P _ _ _ _ _ H1)).
  intros properties u Hp. vm_compute in Hp. discriminate Hp.
Defined.

(** ** The geocoder *)

Section GeocoderMore.
Context {W : Type} (P : Platform W).

Lemma GeocodeCity_sends city state w :
  url_Parse P "https://nominatim.openstreetmap.org/search" = None ->
  GeocodeCity P city state w =
  let '(resp, w') :=
    client_Do P {| Timeout := 10 |}
      (geocode_request P (geocode_query city state)) w in
  (match resp with
   | Err err => (Float64.zero, Float64.zero, Some err)
   | Ok resp =>
       if negb (StatusCode resp =? StatusOK) then
         (Float64.zero, Float64.zero,
          Some ("geocoding request failed with status: " +:+
                FormatInt (StatusCode resp)))
       else
         match Body resp with
         | Err err => (Float64.zero, Float64.zero, Some err)
         | Ok body =>
             match json_Unmarshal_geo P body with
             | Err err => (Float64.zero, Float64.zero, Some err)
             | Ok [] =>
                 (Float64.zero, Float64.zero,
                  Some ("no results found for location: " +:+
                        geocode_query city state))
             | Ok (first :: _) =>
                 match strconv_ParseFloat P (Lat first) with
                 | Err err => (Float64.zero, Float64.zero, Some err)
                 | Ok lat =>
                     match strconv_ParseFloat P (Lon first) with
                     | Err err => (Float64.zero, Float64.zero, Some err)
                     | Ok lon => (lat, lon, None)
                     end
                 end
             end
         end
   end, w').
Proof.
  intros Hurl. unfold GeocodeCity, http_NewRequest, bind. rewrite Hurl.
  assert (Hq : (if negb (String.eqb state "") then city +:+ ", " +:+ state
                else city) = geocode_query city state).
  { unfold geocode_query.
    destruct (String.eqb_spec state ""); destruct (decide (state = ""));
      simpl; congruence. }
  rewrite Hq. unfold Values_Add. cbn [app].
  fold (geocode_request P (geocode_query city state)).
  destruct (client_Do P {| Timeout := 10 |}
              (geocode_request P (geocode_query city state)) w)
    as [[resp|err] w']; [|reflexivity].
  destruct (negb (StatusCode resp =? StatusOK)); [reflexivity|].
  destruct (Body resp) as [body|err]; [|reflexivity].
  destruct (json_Unmarshal_geo P body) as [[|first rest]|err];
    try reflexivity.
  destruct (strconv_ParseFloat P (Lat first)); [|reflexivity].
  now destruct (strconv_ParseFloat P (Lon first)).
Qed.

(** Whenever [GeocodeCity] returns an error, both coordinates it returns
    are zero: no half-parsed pair leaves the function. *)
Theorem GeocodeCity_error_zero city state w :
  (GeocodeCity P city state w).1.2 <> None ->
  (GeocodeCity P city state w).1.1 = (Float64.zero, Float64.zero).
Proof.
  unfold GeocodeCity, bind.
  destruct (http_NewRequest P "GET" _) as [req|err]; [|reflexivity].
  match goal with
  | |- context [client_Do P ?c ?r w] =>
      destruct (client_Do P c r w) as [[resp|err] w']
  end; [|reflexivity].
  destruct (negb (StatusCode resp =? StatusOK)); [reflexivity|].
  destruct (Body resp) as [body|err]; [|reflexivity].
  destruct (json_Unmarshal_geo P body) as [[|first rest]|err];
    try reflexivity.
  destruct (strconv_ParseFloat P (Lat first)); [|reflexivity].
  destruct (strconv_ParseFloat P (Lon first)); [|reflexivity].
  cbn [ret fst snd]. now intros [].
Qed.

(** A geocoder answer with a status other than 200 is an error naming
    the status; the body is not decoded. *)
Theorem GeocodeCity_bad_status city state w resp w' :
  url_Parse P "https://nominatim.openstreetmap.org/search" = None ->
  client_Do P {| Timeout := 10 |}
    (geocode_request P (geocode_query city state)) w = (Ok resp, w') ->
  StatusCode resp <> StatusOK ->
  GeocodeCity P city state w
  = ((Float64.zero, Float64.zero,
      Some ("geocoding request failed with status: " +:+
            FormatInt (StatusCode resp))), w').
Proof.
  intros Hurl Hdo Hcode. rewrite (GeocodeCity_sends _ _ _ Hurl), Hdo.
  now destruct (Z.eqb_spec (StatusCode resp) StatusOK).
Qed.

(** [GeocodeCity] makes one call of [client.Do], with a 10 second
    client. The request carries the query parameters in key order
    ([format], [limit], [q]), whatever the order they were added in, and
    the User-Agent header alone; the looked-up text is the city, followed
    by a comma, a space and the state when a state is given. *)
Theorem GeocodeCity_request city state w :
  url_Parse P "https://nominatim.openstreetmap.org/search" = None ->
  (GeocodeCity P city state w).2
  = (client_Do P {| Timeout := 10 |}
       (geocode_request P (geocode_query city state)) w).2 /\
  req_RawQuery (geocode_request P (geocode_query city state))
  = Some (url_QueryEscape P "format" +:+ "=" +:+ url_QueryEscape P "json" +:+
          "&" +:+
          url_QueryEscape P "limit" +:+ "=" +:+ url_QueryEscape P "1" +:+
          "&" +:+
          url_QueryEscape P "q" +:+ "=" +:+
          url_QueryEscape P (geocode_query city state)) /\
  req_Header (geocode_request P (geocode_query city state))
  = [("User-Agent", "weather-app/1.0")] /\
  geocode_query city "" = city /\
  (state <> "" -> geocode_query city state = city +:+ ", " +:+ state).
Proof.
  intros Hurl. rewrite (GeocodeCity_sends _ _ _ Hurl).
  split.
  { now destruct (client_Do P {| Timeout := 10 |}
                    (geocode_request P (geocode_query city state)) w). }
  split.
  { unfold geocode_request, set_Header, set_RawQuery, Values_Encode.
    cbn [req_RawQuery]. f_equal.
    change (sort_by_key [("q", geocode_query city state);
                         ("format", "json"); ("limit", "1")])
      with [("format", "json"); ("limit", "1");
            ("q", geocode_query city state)].
    cbn [map Join fst snd]. now rewrite !append_assoc. }
  split; [reflexivity|]. split; [reflexivity|].
  intros Hs. unfold geocode_query. now destruct (decide (state = "")).
Qed.

End GeocoderMore.

(** No candidate for the place: an error, and zero coordinates. *)
Lemma GeocodeCity_error_zero_witness :
  let P := Stub.geocoder_platform Stub.body_no_places in
  (GeocodeCity P "Nowhereville" "" 0%nat).1.2 <> None /\
  (GeocodeCity P "Nowhereville" "" 0%nat).1.1 = (Float64.zero, Float64.zero).
Proof.
  assert (H : (GeocodeCity (Stub.geocoder_platform Stub.body_no_places)
                 "Nowhereville" "" 0%nat).1.2 <> None)
    by (vm_compute; discriminate).
  split; [exact H|].
  exact (GeocodeCity_error_zero _ "Nowhereville" "" 0%nat H).
Defined.

(** The geocoder answers 429. *)
Lemma GeocodeCity_bad_status_witness :
  let P := Stub.failing_platform 429 in
  let resp := {| StatusCode := 429; Body := Ok "" |} in
  (url_Parse P "https://nominatim.openstreetmap.org/search" = None /\
   client_Do P {| Timeout := 10 |}
     (geocode_request P (geocode_query "Seattle" "WA")) 0%nat
   = (Ok resp, 1%nat) /\
   StatusCode resp <> StatusOK) /\
  GeocodeCity P "Seattle" "WA" 0%nat
  = ((Float64.zero, Float64.zero,
      Some "geocoding request failed with status: 429"), 1%nat).
Proof.
  set (P := Stub.failing_platform 429).
  set (resp := {| StatusCode := 429; Body := Ok "" |}).
  assert (H1 : url_Parse P "https://nominatim.openstreetmap.org/search"
               = None) by reflexivity.
  assert (H2 : client_Do P {| Timeout := 10 |}
                 (geocode_request P (geocode_query "Seattle" "WA")) 0%nat
               = (Ok resp, 1%nat)) by reflexivity.
  assert (H3 : StatusCode resp <> StatusOK) by discriminate.
  split; [now repeat split|].
  exact (GeocodeCity_bad_status P "Seattle" "WA" 0%nat resp 1%nat H1 H2 H3).
Defined.

(** The request for Seattle, WA. *)
Lemma GeocodeCity_request_witness :
  let P := Stub.geocoder_platform Stub.body_two_places in
  url_Parse P "https://nominatim.openstreetmap.org/search" = None /\
  req_RawQuery (geocode_request P (geocode_query "Seattle" "WA"))
  = Some "format=json&limit=1&q=Seattle, WA".
Proof.
  set (P := Stub.geocoder_platform Stub.body_two_places).
  assert (H1 : url_Parse P "https://nominatim.openstreetmap.org/search"
               = None) by reflexivity.
  split; [exact H1|].
  rewrite (proj1 (proj2 (GeocodeCity_request P "Seattle" "WA" 0%nat H1))).
  reflexivity.
Defined.

(** ** Forecast by city *)

Section ByCityMore.
Context {W : Type} (P : Platform W).

(** The forecast for a city is the forecast at the parsed coordinates of
    the geocoder's first candidate: [GetForecastByCity] runs [GetForecast]
    there, from the state the geocoding left, and adds nothing to it. *)
Theorem GetForecastByCity_first_candidate city state w resp w' body
    first rest lat lon :
  url_Parse P "https://nominatim.openstreetmap.org/search" = None ->
  client_Do P {| Timeout := 10 |}
    (geocode_request P (geocode_query city state)) w = (Ok resp, w') ->
  StatusCode resp = StatusOK ->
  Body resp = Ok body ->
  json_Unmarshal_geo P body = Ok (first :: rest) ->
  strconv_ParseFloat P (Lat first) = Ok lat ->
  strconv_ParseFloat P (Lon first) = Ok lon ->
  GetForecastByCity P city state w = GetForecast P lat lon w'.
Proof.
  intros Hurl Hdo Hcode Hbody Hjson Hlat Hlon.
  unfold GetForecastByCity, bind.
  rewrite (GeocodeCity_decoded P _ _ _ _ _ _ _ Hurl Hdo Hcode Hbody Hjson).
  now rewrite Hlat, Hlon.
Qed.

(** When the geocoder finds no candidate, [GetForecastByCity] returns a
    text naming the city (and the state when one is given) with the
    geocoder's error, and the weather API is never called; the
    [/forecast/city] handler answers 500 with a body that contains the
    city and "no results found". *)
Theorem GetForecastByCity_no_results r w resp w' body :
  Method r = MethodGet ->
  Values_Get (URL_Query r) "city" <> "" ->
  let city := Values_Get (URL_Query r) "city" in
  let state := Values_Get (URL_Query r) "state" in
  url_Parse P "https://nominatim.openstreetmap.org/search" = None ->
  client_Do P {| Timeout := 10 |}
    (geocode_request P (geocode_query city state)) w = (Ok resp, w') ->
  StatusCode resp = StatusOK ->
  Body resp = Ok body ->
  json_Unmarshal_geo P body = Ok [] ->
  GetForecastByCity P city state w
  = (("Unable to find coordinates for " +:+ city +:+
      (if decide (state = "") then "" else ", " +:+ state) +:+ ".",
      Some ("no results found for location: " +:+ geocode_query city state)),
     w') /\
  (HandleForecastByCity P new_ResponseWriter r w).2 = w' /\
  w_Code (HandleForecastByCity P new_ResponseWriter r w).1
  = Some StatusInternalServerError /\
  w_Body (HandleForecastByCity P new_ResponseWriter r w).1
  = "Error fetching forecast: no results found for location: " +:+
    geocode_query city state +:+ LF /\
  Contains (w_Body (HandleForecastByCity P new_ResponseWriter r w).1) city /\
  Contains (w_Body (HandleForecastByCity P new_ResponseWriter r w).1)
    "no results found".
Proof.
  intros Hget Hcity city state Hurl Hdo Hcode Hbody Hjson.
  assert (HG : GetForecastByCity P city state w
               = (("Unable to find coordinates for " +:+ city +:+
                   (if decide (state = "") then "" else ", " +:+ state)
                   +:+ ".",
                   Some ("no results found for location: " +:+
                         geocode_query city state)), w')).
  { unfold GetForecastByCity, bind.
    rewrite (GeocodeCity_decoded P _ _ _ _ _ _ _ Hurl Hdo Hcode Hbody Hjson).
    cbn [ret]. do 3 f_equal.
    destruct (String.eqb_spec state ""); destruct (decide (state = ""));
      simpl; congruence. }
  assert (HH : HandleForecastByCity P new_ResponseWriter r w
               = (http_Error new_ResponseWriter
                    ("Error fetching forecast: " +:+
                     "no results found for location: " +:+
                     geocode_query city state)
                    StatusInternalServerError, w')).
  { unfold HandleForecastByCity. rewrite Hget, String.eqb_refl.
    destruct (String.eqb_spec (Values_Get (URL_Query r) "city") "");
      [contradiction|].
    cbn [negb]. unfold bind. fold city state. now rewrite HG. }
  split; [exact HG|]. rewrite HH. cbn [fst snd].
  split; [reflexivity|]. split; [reflexivity|].
  assert (Hb : w_Body (http_Error new_ResponseWriter
                         ("Error fetching forecast: " +:+
                          "no results found for location: " +:+
                          geocode_query city state)
                         StatusInternalServerError)
               = "Error fetching forecast: no results found for location: "
                 +:+ geocode_query city state +:+ LF).
  { unfold http_Error, Write. cbn [w_Body WriteHeader w_Header_Set w_Code
      new_ResponseWriter]. now rewrite append_nil_l, !append_assoc. }
  rewrite Hb. split; [reflexivity|]. split.
  - apply Contains_append_l. unfold geocode_query.
    destruct (decide (state = "")).
    + contains_at "" LF.
    + contains_at "" (", " +:+ state +:+ LF).
  - contains_at "Error fetching forecast: "
                (" for location: " +:+ geocode_query city state +:+ LF).
Qed.

End ByCityMore.

(** Seattle, WA: the forecast at 47, -122. *)
Lemma GetForecastByCity_first_candidate_witness :
  let P := Fixtures.city_platform Stub.body_two_places in
  let resp := {| StatusCode := 200; Body := Ok Stub.body_two_places |} in
  let first := {| Lat := "47"; Lon := "-122" |} in
  let rest := [ {| Lat := "10"; Lon := "20" |} ] in
  let lat := S754_finite false 47 0 in
  let lon := S754_finite true 122 0 in
  (url_Parse P "https://nominatim.openstreetmap.org/search" = None /\
   client_Do P {| Timeout := 10 |}
     (geocode_request P (geocode_query "Seattle" "WA")) 0%nat
   = (Ok resp, 1%nat) /\
   StatusCode resp = StatusOK /\
   Body resp = Ok Stub.body_two_places /\
   json_Unmarshal_geo P Stub.body_two_places = Ok (first :: rest) /\
   strconv_ParseFloat P (Lat first) = Ok lat /\
   strconv_ParseFloat P (Lon first) = Ok lon) /\
  GetForecastByCity P "Seattle" "WA" 0%nat = GetForecast P lat lon 1%nat.
Proof.
  set (P := Fixtures.city_platform Stub.body_two_places).
  set (resp := {| StatusCode := 200; Body := Ok Stub.body_two_places |}).
  set (first := {| Lat := "47"; Lon := "-122" |}).
  set (rest := [ {| Lat := "10"; Lon := "20" |} ]).
  assert (H1 : url_Parse P "https://nominatim.openstreetmap.org/search"
               = None) by reflexivity.
  assert (H2 : client_Do P {| Timeout := 10 |}
                 (geocode_request P (geocode_query "Seattle" "WA")) 0%nat
               = (Ok resp, 1%nat)) by reflexivity.
  assert (H3 : StatusCode resp = StatusOK) by reflexivity.
  assert (H4 : Body resp = Ok Stub.body_two_places) by reflexivity.
  assert (H5 : json_Unmarshal_geo P Stub.body_two_places = Ok (first :: rest))
    by (vm_compute; reflexivity).
  assert (H6 : strconv_ParseFloat P (Lat first) = Ok (S754_finite false 47 0))
    by reflexivity.
  assert (H7 : strconv_ParseFloat P (Lon first) = Ok (S754_finite true 122 0))
    by reflexivity.
  split; [now repeat split|].
  exact (GetForecastByCity_first_candidate P "Seattle" "WA" 0%nat resp 1%nat
           _ first rest _ _ H1 H2 H3 H4 H5 H6 H7).
Defined.

(** Nowhereville: no candidate. *)
Lemma GetForecastByCity_no_results_witness :
  let P := Fixtures.city_platform Stub.body_no_places in
  let r := Fixtures.get [("city", "Nowhereville")] in
  let resp := {| StatusCode := 200; Body := Ok Stub.body_no_places |} in
  (Method r = MethodGet /\
   Values_Get (URL_Query r) "city" <> "" /\
   url_Parse P "https://nominatim.openstreetmap.org/search" = None /\
   client_Do P {| Timeout := 10 |}
     (geocode_request P
        (geocode_query (Values_Get (URL_Query r) "city")
           (Values_Get (URL_Query r) "state"))) 0%nat
   = (Ok resp, 1%nat) /\
   StatusCode resp = StatusOK /\
   Body resp = Ok Stub.body_no_places /\
   json_Unmarshal_geo P Stub.body_no_places = Ok []) /\
  w_Code (HandleForecastByCity P new_ResponseWriter r 0%nat).1
  = Some StatusInternalServerError /\
  w_Body (HandleForecastByCity P new_ResponseWriter r 0%nat).1
  = "Error fetching forecast: no results found for location: Nowhereville"
    +:+ LF.
Proof.
  set (P := Fixtures.city_platform Stub.body_no_places).
  set (r := Fixtures.get [("city", "Nowhereville")]).
  set (resp := {| StatusCode := 200; Body := Ok Stub.body_no_places |}).
  assert (H1 : Method r = MethodGet) by reflexivity.
  assert (H2 : Values_Get (URL_Query r) "city" <> "") by discriminate.
  assert (H3 : url_Parse P "https://nominatim.openstreetmap.org/search"
               = None) by reflexivity.
  assert (H4 : client_Do P {| Timeout := 10 |}
                 (geocode_request P
                    (geocode_query (Values_Get (URL_Query r) "city")
                       (Values_Get (URL_Query r) "state"))) 0%nat
               = (Ok resp, 1%nat)) by reflexivity.
  assert (H5 : StatusCode resp = StatusOK) by reflexivity.
  assert (H6 : Body resp = Ok Stub.body_no_places) by reflexivity.
  assert (H7 : json_Unmarshal_geo P Stub.body_no_places = Ok [])
    by (vm_compute; reflexivity).
  split; [now repeat split|].
  pose proof (GetForecastByCity_no_results P r 0%nat resp 1%nat _
                H1 H2 H3 H4 H5 H6 H7) as (_ & _ & Hc & Hb & _).
  split; [exact Hc | exact Hb].
Defined.

(** ** The handlers *)

Lemma http_Error_fresh (msg : string) (code : Z) :
  http_Error new_ResponseWriter msg code = plain_error code msg.
Proof. reflexivity. Qed.

Lemma Write_fresh (text : string) :
  Write (w_Header_Set new_ResponseWriter "Content-Type" "text/plain") text
  = plain_ok text.
Proof. reflexivity. Qed.

Section HandlersMore.
Context {W : Type} (P : Platform W).

(** A request whose method is not GET is answered 405 "Method not
    allowed" by each of the three handlers, before any parameter is read
    and without any call of an upstream. *)
Theorem handlers_reject_other_methods r w :
  Method r <> MethodGet ->
  HandleAlerts P new_ResponseWriter r w
  = (plain_error StatusMethodNotAllowed "Method not allowed", w) /\
  HandleForecast P new_ResponseWriter r w
  = (plain_error StatusMethodNotAllowed "Method not allowed", w) /\
  HandleForecastByCity P new_ResponseWriter r w
  = (plain_error StatusMethodNotAllowed "Method not allowed", w).
Proof.
  intros Hm. unfold HandleAlerts, HandleForecast, HandleForecastByCity.
  destruct (String.eqb_spec (Method r) MethodGet); [contradiction|].
  cbn [negb]. now rewrite http_Error_fresh.
Qed.

(** A GET without its required parameter is answered 400 without any
    call of an upstream: [state] for [/alerts], [city] for
    [/forecast/city]. *)
Theorem handlers_missing_parameter r w :
  Method r = MethodGet ->
  (Values_Get (URL_Query r) "state" = "" ->
   HandleAlerts P new_ResponseWriter r w
   = (plain_error StatusBadRequest "State parameter is required", w)) /\
  (Values_Get (URL_Query r) "city" = "" ->
   HandleForecastByCity P new_ResponseWriter r w
   = (plain_error StatusBadRequest "City parameter is required", w)).
Proof.
  intros Hget. unfold HandleAlerts, HandleForecastByCity.
  rewrite Hget, String.eqb_refl. cbn [negb].
  split; intros ->; now rewrite http_Error_fresh.
Qed.

(** [/forecast] validates its coordinates before any upstream call: a
    missing [lat] or [lon] gives 400 "Latitude and longitude parameters
    are required"; a latitude that does not parse gives 400 "Invalid
    latitude value"; with a good latitude, a longitude that does not parse
    gives 400 "Invalid longitude value". *)
Theorem HandleForecast_validation r w :
  Method r = MethodGet ->
  let latStr := Values_Get (URL_Query r) "lat" in
  let lonStr := Values_Get (URL_Query r) "lon" in
  (latStr = "" \/ lonStr = "" ->
   HandleForecast P new_ResponseWriter r w
   = (plain_error StatusBadRequest
        "Latitude and longitude parameters are required", w)) /\
  (latStr <> "" -> lonStr <> "" ->
   is_Err (strconv_ParseFloat P latStr) ->
   HandleForecast P new_ResponseWriter r w
   = (plain_error StatusBadRequest "Invalid latitude value", w)) /\
  (latStr <> "" -> lonStr <> "" ->
   ~ is_Err (strconv_ParseFloat P latStr) ->
   is_Err (strconv_ParseFloat P lonStr) ->
   HandleForecast P new_ResponseWriter r w
   = (plain_error StatusBadRequest "Invalid longitude value", w)).
Proof.
  intros Hget latStr lonStr. unfold HandleForecast.
  rewrite Hget, String.eqb_refl. cbn [negb]. fold latStr lonStr.
  destruct (String.eqb_spec latStr ""), (String.eqb_spec lonStr "");
    cbn [orb]; rewrite ?http_Error_fresh;
    (split; [|split]); intros; try reflexivity; try tauto.
  - destruct (strconv_ParseFloat P latStr); [contradiction | reflexivity].
  - destruct (strconv_ParseFloat P latStr); [|simpl in *; tauto].
    destruct (strconv_ParseFloat P lonStr); [contradiction | reflexivity].
Qed.

(** With valid parameters, each handler answers with its pipeline's
    result and leaves the network as the pipeline left it: on success
    status 200, content type text/plain and the pipeline's text as the
    whole body; on error status 500 and the fixed prefix followed by the
    error message, the text returned beside the error being dropped. *)
Theorem handlers_relay r w :
  Method r = MethodGet ->
  (Values_Get (URL_Query r) "state" <> "" ->
   HandleAlerts P new_ResponseWriter r w
   = (relay "Error fetching alerts: "
        (GetAlerts P (Values_Get (URL_Query r) "state") w).1,
      (GetAlerts P (Values_Get (URL_Query r) "state") w).2)) /\
  (forall lat lon,
     Values_Get (URL_Query r) "lat" <> "" ->
     Values_Get (URL_Query r) "lon" <> "" ->
     strconv_ParseFloat P (Values_Get (URL_Query r) "lat") = Ok lat ->
     strconv_ParseFloat P (Values_Get (URL_Query r) "lon") = Ok lon ->
     HandleForecast P new_ResponseWriter r w
     = (relay "Error fetching forecast: " (GetForecast P lat lon w).1,
        (GetForecast P lat lon w).2)) /\
  (Values_Get (URL_Query r) "city" <> "" ->
   HandleForecastByCity P new_ResponseWriter r w
   = (relay "Error fetching forecast: "
        (GetForecastByCity P (Values_Get (URL_Query r) "city")
           (Values_Get (URL_Query r) "state") w).1,
      (GetForecastByCity P (Values_Get (URL_Query r) "city")
         (Values_Get (URL_Query r) "state") w).2)).
Proof.
  intros Hget. unfold HandleAlerts, HandleForecast, HandleForecastByCity.
  rewrite Hget, String.eqb_refl. cbn [negb]. split; [|split].
  - intros Hs.
    destruct (String.eqb_spec (Values_Get (URL_Query r) "state") "");
      [contradiction|].
    unfold bind, relay.
    destruct (GetAlerts P _ w) as [[text [err|]] w']; reflexivity.
  - intros lat lon Hlat Hlon Hplat Hplon.
    destruct (String.eqb_spec (Values_Get (URL_Query r) "lat") "");
      [contradiction|].
    destruct (String.eqb_spec (Values_Get (URL_Query r) "lon") "");
      [contradiction|].
    cbn [orb]. rewrite Hplat, Hplon. unfold bind, relay.
    destruct (GetForecast P lat lon w) as [[text [err|]] w']; reflexivity.
  - intros Hc.
    destruct (String.eqb_spec (Values_Get (URL_Query r) "city") "");
      [contradiction|].
    unfold bind, relay.
    destruct (GetForecastByCity P _ _ w) as [[text [err|]] w']; reflexivity.
Qed.

End HandlersMore.

(** A POST to each route. *)
Lemma handlers_reject_other_methods_witness :
  let P := Stub.alerts_platform Stub.body_two_alerts in
  let r := Fixtures.post [("state", "CA")] in
  Method r <> MethodGet /\
  HandleAlerts P new_ResponseWriter r 0%nat
  = (plain_error 405 "Method not allowed", 0%nat).
Proof.
  assert (H : Method (Fixtures.post [("state", "CA")]) <> MethodGet)
    by discriminate.
  split; [exact H|].
  exact (proj1 (handlers_reject_other_methods
                  (Stub.alerts_platform Stub.body_two_alerts) _ 0%nat H)).
Defined.

(** A GET without any parameter. *)
Lemma handlers_missing_parameter_witness :
  let P := Stub.alerts_platform Stub.body_two_alerts in
  let r := Fixtures.get [] in
  (Method r = MethodGet /\ Values_Get (URL_Query r) "state" = "") /\
  HandleAlerts P new_ResponseWriter r 0%nat
  = (plain_error 400 "State parameter is required", 0%nat).
Proof.
  assert (H : Method (Fixtures.get []) = MethodGet) by reflexivity.
  assert (Hs : Values_Get (URL_Query (Fixtures.get [])) "state" = "")
    by reflexivity.
  split; [now split|].
  exact (proj1 (handlers_missing_parameter
                  (Stub.alerts_platform Stub.body_two_alerts) _ 0%nat H) Hs).
Defined.

(** [/forecast?lat=abc&lon=1]. *)
Lemma HandleForecast_validation_witness :
  let P := Stub.forecast_platform Stub.body_points in
  let r := Fixtures.get [("lat", "abc"); ("lon", "1")] in
  (Method r = MethodGet /\
   Values_Get (URL_Query r) "lat" <> "" /\
   Values_Get (URL_Query r) "lon" <> "" /\
   is_Err (strconv_ParseFloat P (Values_Get (URL_Query r) "lat"))) /\
  HandleForecast P new_ResponseWriter r 0%nat
  = (plain_error 400 "Invalid latitude value", 0%nat).
Proof.
  set (P := Stub.forecast_platform Stub.body_points).
  set (r := Fixtures.get [("lat", "abc"); ("lon", "1")]).
  assert (H1 : Method r = MethodGet) by reflexivity.
  assert (H2 : Values_Get (URL_Query r) "lat" <> "") by discriminate.
  assert (H3 : Values_Get (URL_Query r) "lon" <> "") by discriminate.
  assert (H4 : is_Err (strconv_ParseFloat P (Values_Get (URL_Query r) "lat")))
    by exact I.
  split; [now repeat split|].
  exact (proj1 (proj2 (HandleForecast_validation P r 0%nat H1)) H2 H3 H4).
Defined.

(** [/alerts?state=CA] on an upstream without alerts. *)
Lemma handlers_relay_witness :
  let P := Stub.alerts_platform Stub.body_no_alerts in
  let r := Fixtures.get [("state", "CA")] in
  (Method r = MethodGet /\ Values_Get (URL_Query r) "state" <> "") /\
  HandleAlerts P new_ResponseWriter r 0%nat
  = (plain_ok "No active alerts for this state.", 1%nat).
Proof.
  set (P := Stub.alerts_platform Stub.body_no_alerts).
  set (r := Fixtures.get [("state", "CA")]).
  assert (H1 : Method r = MethodGet) by reflexivity.
  assert (H2 : Values_Get (URL_Query r) "state" <> "") by discriminate.
  split; [now split|].
  rewrite (proj1 (handlers_relay P r 0%nat H1) H2).
  vm_compute. reflexivity.
Defined.

(** ** What the handlers commit, and how often the upstream is called *)

Section Bounds.
Context {W : Type} (P : Platform W).

(** Closes [w_Code rw ∈ codes] once the handler has reached an answer. *)
Ltac committed_code :=
  cbn [ret fst]; rewrite ?http_Error_fresh, ?Write_fresh;
  cbn [w_Code plain_error plain_ok];
  repeat first [apply list_elem_of_here | apply list_elem_of_further].

(** Whatever the request and whatever the upstream does, each handler
    commits a status, and it is one of 200, 400, 405 and 500. *)
Theorem handlers_status_codes r w :
  let codes := [Some StatusOK; Some StatusBadRequest;
                Some StatusMethodNotAllowed;
                Some StatusInternalServerError] in
  w_Code (HandleAlerts P new_ResponseWriter r w).1 ∈ codes /\
  w_Code (HandleForecast P new_ResponseWriter r w).1 ∈ codes /\
  w_Code (HandleForecastByCity P new_ResponseWriter r w).1 ∈ codes.
Proof.
  intros codes. subst codes.
  unfold HandleAlerts, HandleForecast, HandleForecastByCity.
  destruct (negb (String.eqb (Method r) MethodGet)).
  { repeat split; committed_code. }
  split; [|split].
  - destruct (String.eqb (Values_Get (URL_Query r) "state") "");
      [committed_code|].
    unfold bind.
    destruct (GetAlerts P _ w) as [[text [err|]] w']; committed_code.
  - destruct (String.eqb (Values_Get (URL_Query r) "lat") "" ||
              String.eqb (Values_Get (URL_Query r) "lon") "");
      [committed_code|].
    destruct (strconv_ParseFloat P (Values_Get (URL_Query r) "lat"))
      as [lat|e1]; [|committed_code].
    destruct (strconv_ParseFloat P (Values_Get (URL_Query r) "lon"))
      as [lon|e2]; [|committed_code].
    unfold bind.
    destruct (GetForecast P lat lon w) as [[text [err|]] w']; committed_code.
  - destruct (String.eqb (Values_Get (URL_Query r) "city") "");
      [committed_code|].
    unfold bind.
    destruct (GetForecastByCity P _ _ w) as [[text [err|]] w'];
      committed_code.
Qed.

Lemma calls_trans n m w w1 w2 :
  calls P n w w1 -> calls P m w1 w2 -> calls P (n + m) w w2.
Proof.
  intros H1 H2. induction H2 as [w1|m w1 w2 c req _ IH].
  - now rewrite Nat.add_0_r.
  - rewrite Nat.add_succ_r. constructor. now apply IH.
Qed.

Lemma GetForecast_calls lat lon w :
  exists n, (n <= 2)%nat /\ calls P n w (GetForecast P lat lon w).2.
Proof.
  unfold GetForecast, bind.
  match goal with
  | |- context [makeNWSRequest P ?c ?u w] =>
      destruct (makeNWSRequest_calls P c u w) as (n1 & Hn1 & Hc1);
      destruct (makeNWSRequest P c u w) as [[pointsData|err] w1]
  end; cbn [snd] in Hc1.
  2:{ exists n1. split; [lia | exact Hc1]. }
  destruct (assert_map (index pointsData "properties"))
    as [properties [|]]; cbn [negb];
    [|exists n1; split; [lia | exact Hc1]].
  destruct (assert_string (index properties "forecast"))
    as [forecastURL [|]]; cbn [negb];
    [|exists n1; split; [lia | exact Hc1]].
  destruct (makeNWSRequest_calls P NewAPIClient forecastURL w1)
    as (n2 & Hn2 & Hc2).
  exists (n1 + n2)%nat. split; [lia|].
  destruct (makeNWSRequest P NewAPIClient forecastURL w1)
    as [[forecastData|err] w2]; cbn [snd] in Hc2;
    [|exact (calls_trans _ _ _ _ _ Hc1 Hc2)].
  destruct (assert_map (index forecastData "properties"))
    as [forecastProps [|]]; cbn [negb];
    [|exact (calls_trans _ _ _ _ _ Hc1 Hc2)].
  destruct (assert_slice (index forecastProps "periods"))
    as [periods [|]]; exact (calls_trans _ _ _ _ _ Hc1 Hc2).
Qed.

Lemma GeocodeCity_calls city state w :
  exists n, (n <= 1)%nat /\ calls P n w (GeocodeCity P city state w).2.
Proof.
  unfold GeocodeCity, bind.
  destruct (http_NewRequest P "GET" _) as [req|err].
  2:{ exists 0%nat. split; [lia | constructor]. }
  match goal with
  | |- context [client_Do P ?c ?r w] =>
      pose proof (calls_more P 0 w w c r (calls_none P w)) as Hc;
      destruct (client_Do P c r w) as [[resp|err] w1]
  end; cbn [snd] in Hc; exists 1%nat; (split; [lia|]); [|exact Hc].
  destruct (negb (StatusCode resp =? StatusOK)); [exact Hc|].
  destruct (Body resp) as [body|err]; [|exact Hc].
  destruct (json_Unmarshal_geo P body) as [[|first rest]|err];
    try exact Hc.
  destruct (strconv_ParseFloat P (Lat first)); [|exact Hc].
  now destruct (strconv_ParseFloat P (Lon first)).
Qed.

(** No pipeline retries or fans out: from any state of the network,
    [GetAlerts] and [GeocodeCity] call [client.Do] at most once,
    [GetForecast] at most twice and [GetForecastByCity] at most three
    times. *)
Theorem pipelines_bounded_calls w :
  (forall state,
     exists n, (n <= 1)%nat /\ calls P n w (GetAlerts P state w).2) /\
  (forall lat lon,
     exists n, (n <= 2)%nat /\ calls P n w (GetForecast P lat lon w).2) /\
  (forall city state,
     exists n, (n <= 1)%nat /\ calls P n w (GeocodeCity P city state w).2) /\
  (forall city state,
     exists n,
       (n <= 3)%nat /\ calls P n w (GetForecastByCity P city state w).2).
Proof.
  split; [|split; [|split]].
  - intros state. unfold GetAlerts, bind.
    match goal with
    | |- context [makeNWSRequest P ?c ?u w] =>
        destruct (makeNWSRequest_calls P c u w) as (n & Hn & Hc);
        destruct (makeNWSRequest P c u w) as [[data|err] w1]
    end; cbn [snd] in Hc; exists n; (split; [exact Hn|]); [|exact Hc].
    destruct (assert_slice (index data "features")) as [features [|]];
      cbn [negb]; [|exact Hc].
    now destruct (length features =? 0)%nat.
  - intros lat lon. apply GetForecast_calls.
  - intros city state. apply GeocodeCity_calls.
  - intros city state. unfold GetForecastByCity, bind.
    destruct (GeocodeCity_calls city state w) as (n1 & Hn1 & Hc1).
    destruct (GeocodeCity P city state w) as [[[lat lon] [err|]] w1];
      cbn [snd] in Hc1.
    + exists n1. split; [lia | exact Hc1].
    + destruct (GetForecast_calls lat lon w1) as (n2 & Hn2 & Hc2).
      exists (n1 + n2)%nat. split; [lia|].
      exact (calls_trans _ _ _ _ _ Hc1 Hc2).
Qed.

End Bounds.

(** ** The request sent to the weather API, and verbatim fields *)

Section RequestMore.
Context {W : Type} (P : Platform W).

(** For a URL that parses, [makeNWSRequest] makes one call of [client.Do]
    with the client it was given: a GET of the URL as it stands, with the
    two headers User-Agent "weather-app/1.0" and Accept
    "application/geo+json" and no other. *)
Theorem makeNWSRequest_request c url w :
  url_Parse P url = None ->
  (makeNWSRequest P c url w).2
  = (client_Do P (client c) (nws_request url) w).2 /\
  req_Method (nws_request url) = "GET" /\
  req_URL (nws_request url) = url /\
  req_RawQuery (nws_request url) = None /\
  req_Header (nws_request url)
  = [("User-Agent", "weather-app/1.0"); ("Accept", "application/geo+json")].
Proof.
  intros Hurl. rewrite (makeNWSRequest_sends P c url w Hurl).
  split; [|now repeat split].
  now destruct (client_Do P (client c) (nws_request url) w).
Qed.

End RequestMore.

(** The alerts request for CA. *)
Lemma makeNWSRequest_request_witness :
  let P := Stub.alerts_platform Stub.body_two_alerts in
  let url := NWSAPIBase +:+ "/alerts/active/area/CA" in
  url_Parse P url = None /\
  (makeNWSRequest P NewAPIClient url 0%nat).2 = 1%nat.
Proof.
  set (P := Stub.alerts_platform Stub.body_two_alerts).
  set (url := NWSAPIBase +:+ "/alerts/active/area/CA").
  assert (H : url_Parse P url = None) by reflexivity.
  split; [exact H|].
  rewrite (proj1 (makeNWSRequest_request P NewAPIClient url 0%nat H)).
  reflexivity.
Defined.

(** When the five fields are non-empty strings, the block shows them as
    they are, in the order event, area, severity, description,
    instructions: no placeholder and no trimming or escaping. *)
Theorem formatAlert_verbatim (feature props : gmap string json)
    (event areaDesc severity description instruction : string) :
  feature !! "properties" = Some (JObj props) ->
  props !! "event" = Some (JStr event) -> event <> "" ->
  props !! "areaDesc" = Some (JStr areaDesc) -> areaDesc <> "" ->
  props !! "severity" = Some (JStr severity) -> severity <> "" ->
  props !! "description" = Some (JStr description) -> description <> "" ->
  props !! "instruction" = Some (JStr instruction) -> instruction <> "" ->
  formatAlert feature
  = LF +:+ "Event: " +:+ event +:+ LF +:+
    "Area: " +:+ areaDesc +:+ LF +:+
    "Severity: " +:+ severity +:+ LF +:+
    "Description: " +:+ description +:+ LF +:+
    "Instructions: " +:+ instruction +:+ LF.
Proof.
  intros H He He' Ha Ha' Hs Hs' Hd Hd' Hi Hi'.
  rewrite (formatAlert_fields _ _ H). unfold field_or.
  rewrite He, Ha, Hs, Hd, Hi.
  destruct (decide (event = "")); [contradiction|].
  destruct (decide (areaDesc = "")); [contradiction|].
  destruct (decide (severity = "")); [contradiction|].
  destruct (decide (description = "")); [contradiction|].
  destruct (decide (instruction = "")); [contradiction|].
  reflexivity.
Qed.

(** The stubbed flood warning. *)
Lemma formatAlert_verbatim_witness :
  let props : gmap string json :=
    <["event" := JStr "Flood Warning"]> (
    <["areaDesc" := JStr "Napa"]> (
    <["severity" := JStr "Severe"]> (
    <["description" := JStr "River rising"]> (
    <["instruction" := JStr "Move to higher ground"]> ∅)))) in
  let feature : gmap string json := {[ "properties" := JObj props ]} in
  (feature !! "properties" = Some (JObj props) /\
   props !! "event" = Some (JStr "Flood Warning") /\
   "Flood Warning" <> "" /\
   props !! "areaDesc" = Some (JStr "Napa") /\ "Napa" <> "" /\
   props !! "severity" = Some (JStr "Severe") /\ "Severe" <> "" /\
   props !! "description" = Some (JStr "River rising") /\
   "River rising" <> "" /\
   props !! "instruction" = Some (JStr "Move to higher ground") /\
   "Move to higher ground" <> "") /\
  formatAlert feature
  = LF +:+ "Event: Flood Warning" +:+ LF +:+ "Area: Napa" +:+ LF +:+
    "Severity: Severe" +:+ LF +:+ "Description: River rising" +:+ LF +:+
    "Instructions: Move to higher ground" +:+ LF.
Proof.
  set (props := (<["event" := JStr "Flood Warning"]> (
                 <["areaDesc" := JStr "Napa"]> (
                 <["severity" := JStr "Severe"]> (
                 <["description" := JStr "River rising"]> (
                 <["instruction" := JStr "Move to higher ground"]> ∅))))
                 : gmap string json)).
  set (feature := ({[ "properties" := JObj props ]} : gmap string json)).
  assert (H : feature !! "properties" = Some (JObj props))
    by (vm_compute; reflexivity).
  assert (He : props !! "event" = Some (JStr "Flood Warning"))
    by (vm_compute; reflexivity).
  assert (Ha : props !! "areaDesc" = Some (JStr "Napa"))
    by (vm_compute; reflexivity).
  assert (Hs : props !! "severity" = Some (JStr "Severe"))
    by (vm_compute; reflexivity).
  assert (Hd : props !! "description" = Some (JStr "River rising"))
    by (vm_compute; reflexivity).
  assert (Hi : props !! "instruction" = Some (JStr "Move to higher ground"))
    by (vm_compute; reflexivity).
  assert (He' : "Flood Warning" <> "") by discriminate.
  assert (Ha' : "Napa" <> "") by discriminate.
  assert (Hs' : "Severe" <> "") by discriminate.
  assert (Hd' : "River rising" <> "") by discriminate.
  assert (Hi' : "Move to higher ground" <> "") by discriminate.
  split; [now repeat split|].
  exact (formatAlert_verbatim feature props _ _ _ _ _
           H He He' Ha Ha' Hs Hs' Hd Hd' Hi Hi').
Defined.
